(** * Antibody kinetics of [Eradication/MalariaAntibody.cpp]

    A shallow embedding of the class [Kernel::MalariaAntibody] and of its four
    subclasses, and the properties of the antibody-lineage specification
    checked against it.

    The C++ code computes on [float] fields, with [double] constants and a
    [double]-valued sigmoid.  The embedding keeps every conversion the C++
    typing rules insert and is parametric in the arithmetic ([FloatArith]).
    Two arithmetics are given: [exact], where both types are the rationals and
    no operation rounds, and [ieee], the binary32 / binary64 formats with
    round-to-nearest-even.  Laws that only follow the control flow are proved
    for every arithmetic; orders, bounds and signs are proved on [ieee], the
    arithmetic the program computes in; [exact] reads a formula of the
    specification where the program evaluates the same operations in the same
    order. *)

From Stdlib Require Import ZArith QArith Bool List String Lia Lqa.
From Stdlib Require Import Floats.SpecFloat.
Import ListNotations.

Set Implicit Arguments.

(** ** Arithmetic of the two floating types *)

Declare Scope flt_scope.
Delimit Scope flt_scope with flt.

Class FloatArith : Type := {
  float  : Type;                       (* C++ [float]  *)
  double : Type;                       (* C++ [double] *)
  f_add : float -> float -> float;
  f_sub : float -> float -> float;
  f_mul : float -> float -> float;
  f_div : float -> float -> float;
  f_gt  : float -> float -> bool;      (* [a > b] on two floats *)
  d_add : double -> double -> double;
  d_div : double -> double -> double;
  d_gt  : double -> double -> bool;    (* [a > b]  on two doubles *)
  d_le  : double -> double -> bool;    (* [a <= b] on two doubles *)
  f2d   : float -> double;             (* promotion float -> double *)
  d2f   : double -> float;             (* conversion double -> float *)
  i2f   : Z -> float;                  (* conversion of an integer to float *)
  f_lit : Q -> float;                  (* a literal with suffix f: 0.05f *)
  d_lit : Q -> double                  (* a literal without suffix: 0.4 *)
}.

Infix "+" := f_add : flt_scope.
Infix "-" := f_sub : flt_scope.
Infix "*" := f_mul : flt_scope.
Infix "/" := f_div : flt_scope.
Infix ">?" := f_gt (at level 70, no associativity) : flt_scope.

(** The exact arithmetic: both types are [Q], nothing rounds. *)
Definition Qgt_bool (a b : Q) : bool := negb (Qle_bool a b).

Definition exact : FloatArith := {|
  float := Q; double := Q;
  f_add := Qplus; f_sub := Qminus; f_mul := Qmult; f_div := Qdiv;
  f_gt := Qgt_bool;
  d_add := Qplus; d_div := Qdiv;
  d_gt := Qgt_bool; d_le := Qle_bool;
  f2d := fun x => x; d2f := fun x => x;
  i2f := inject_Z;
  f_lit := fun q => q; d_lit := fun q => q
|}.

(** The machine arithmetic: [float] is binary32 (24-bit significand, [emax]
    128), [double] is binary64 (53 bits, 1024); every operation rounds to
    nearest, ties to even, as [SpecFloat] defines it. *)
Definition SF_convert (prec emax : Z) (x : spec_float) : spec_float :=
  match x with
  | S754_finite s m e => binary_round prec emax s m e
  | _ => x
  end.

Definition SF_of_Z (prec emax : Z) (z : Z) : spec_float :=
  binary_normalize prec emax z 0 false.

(** A decimal literal [n / d]: correctly rounded as soon as [n] and [d] are
    themselves representable, which holds for every literal of this file. *)
Definition SF_of_Q (prec emax : Z) (q : Q) : spec_float :=
  SFdiv prec emax (SF_of_Z prec emax (Qnum q)) (SF_of_Z prec emax (Zpos (Qden q))).

(** The rational a finite float denotes. *)
Definition SF_to_Q (x : spec_float) : option Q :=
  match x with
  | S754_zero _ => Some 0
  | S754_finite s m e =>
      let n := if s then Zneg m else Zpos m in
      Some (match e with
            | Z0 => inject_Z n
            | Zpos p => inject_Z (n * 2 ^ Zpos p)
            | Zneg p => n # (2 ^ p)
            end)
  | _ => None
  end.

(** Classes of a [spec_float]. *)
Definition SF_is_nan (x : spec_float) : bool :=
  match x with S754_nan => true | _ => false end.

Definition SF_is_zero (x : spec_float) : bool :=
  match x with S754_zero _ => true | _ => false end.

(** A zero or a finite number: neither an infinity nor NaN. *)
Definition SF_is_finite (x : spec_float) : bool :=
  match x with S754_zero _ | S754_finite _ _ _ => true | _ => false end.

(** [x] is NaN or carries the sign bit [s]. *)
Definition SF_has_sign (s : bool) (x : spec_float) : bool :=
  match x with
  | S754_nan => true
  | S754_zero s' | S754_infinity s' | S754_finite s' _ _ => Bool.eqb s' s
  end.

(** [x] is NaN, a zero, or negative: the test [x > 0] is false. *)
Definition SF_not_positive (x : spec_float) : bool :=
  match x with
  | S754_nan | S754_zero _ => true
  | S754_infinity s | S754_finite s _ _ => s
  end.

(** [x] is NaN, a zero, or positive: the test [x < 0] is false. *)
Definition SF_not_negative (x : spec_float) : bool :=
  match x with
  | S754_nan | S754_zero _ => true
  | S754_infinity s | S754_finite s _ _ => negb s
  end.

Definition ieee : FloatArith := {|
  float := spec_float; double := spec_float;
  f_add := SFadd 24 128; f_sub := SFsub 24 128;
  f_mul := SFmul 24 128; f_div := SFdiv 24 128;
  f_gt := fun a b => SFltb b a;
  d_add := SFadd 53 1024; d_div := SFdiv 53 1024;
  d_gt := fun a b => SFltb b a; d_le := SFleb;
  f2d := SF_convert 53 1024; d2f := SF_convert 24 128;
  i2f := SF_of_Z 24 128;
  f_lit := SF_of_Q 24 128; d_lit := SF_of_Q 53 1024
|}.

(** [int64_t].  C++ leaves signed overflow undefined; the stored value is taken
    to be the two's complement one, which is what the supported compilers
    produce: [int64_wrap z] is the value stored for the exact result [z]. *)
Definition INT64_MIN : Z := - 2 ^ 63.
Definition INT64_MAX : Z := 2 ^ 63 - 1.
Definition int64_wrap (z : Z) : Z := ((z + 2 ^ 63) mod 2 ^ 64 - 2 ^ 63)%Z.
Definition in_int64 (z : Z) : Prop := (INT64_MIN <= z <= INT64_MAX)%Z.

(** ** Constants of the translation unit *)

Section Constants.
Context {FA : FloatArith}.

Definition NON_TRIVIAL_ANTIBODY_THRESHOLD : double := d_lit 0.0000001.
Definition TWENTY_DAY_DECAY_CONSTANT      : float  := f_lit 0.05.
Definition B_CELL_PROLIFERATION_THRESHOLD : double := d_lit 0.4.
Definition B_CELL_PROLIFERATION_CONSTANT  : float  := f_lit 0.33.
Definition ANTIBODY_RELEASE_THRESHOLD     : double := d_lit 0.3.
Definition ANTIBODY_RELEASE_FACTOR        : Z      := 4.
End Constants.

(** ** Declarations the translation unit includes *)

Module MalariaAntibodyType.
(** The enumerators used by the four [CreateAntibody] functions. *)
Inductive Enum : Set := CSP | MSP1 | PfEMP1_minor | PfEMP1_major.

(** Modelled from the spec: the header declaring the enumeration is not part
    of the sources; "type (integer/enum code)" is rendered by numbering the
    four lineage types in the order the specification lists them. *)
Definition to_int (e : Enum) : Z :=
  match e with CSP => 0 | MSP1 => 1 | PfEMP1_minor => 2 | PfEMP1_major => 3 end.

End MalariaAntibodyType.

(** The members of [SusceptibilityMalariaConfig] this file reads. *)
Record SusceptibilityMalariaConfig {FA : FloatArith} : Type := {
  memory_level                 : float;
  hyperimmune_decay_rate       : float;
  antibody_csp_decay_days      : float;
  MSP1_antibody_growthrate     : float;
  antibody_stimulation_c50     : float;
  minimum_adapted_response     : float;
  non_specific_growth          : float;
  antibody_capacity_growthrate : float
}.

Module Sigmoid.
Section Sigmoid.
Context {FA : FloatArith}.
(** Modelled from the spec: [Sigmoid::basic_sigmoid] lives in
    MathFunctions.h, which is not part of the sources.  The specification
    gives [sigmoid(c50, x) = x / (x + c50)]; the explicit cast of its
    result to [float] at every call site shows that it computes on
    [double]. *)
Definition basic_sigmoid (threshold variable : double) : double :=
  d_div variable (d_add variable threshold).
End Sigmoid.
End Sigmoid.

(** ** The JSON adapter seen by [JSerialize] / [JDeserialize] *)

Module Json.
Section Json.
Context {FA : FloatArith}.

Inductive Value : Type :=
| Real  (x : float)
| Int64 (z : Z)
| Int   (z : Z)
| Bool  (b : bool).

(** An [IJsonObjectAdapter] is modelled by the calls it has received. *)
Inductive Event : Type :=
| EvBeginObject
| EvInsert (key : string) (v : Value)
| EvEndObject.

Definition IJsonObjectAdapter : Type := list Event.

Definition BeginObject (root : IJsonObjectAdapter) : IJsonObjectAdapter :=
  root ++ [EvBeginObject].
Definition Insert (key : string) (v : Value) (root : IJsonObjectAdapter)
  : IJsonObjectAdapter := root ++ [EvInsert key v].
Definition EndObject (root : IJsonObjectAdapter) : IJsonObjectAdapter :=
  root ++ [EvEndObject].

(** [helper->FindValue(root, key)]: the first member stored under [key]. *)
Fixpoint FindValue (root : IJsonObjectAdapter) (key : string) : option Value :=
  match root with
  | [] => None
  | EvInsert k v :: rest =>
      if String.eqb k key then Some v else FindValue rest key
  | _ :: rest => FindValue rest key
  end.
End Json.
End Json.

(** ** The base class [MalariaAntibody] *)

Module MalariaAntibody.
Import MalariaAntibodyType.
Section Methods.
Context {FA : FloatArith}.
Local Open Scope flt_scope.

(** The data members, in the order the serializers list them. *)
Record t : Type := {
  m_antibody_capacity      : float;
  m_antibody_concentration : float;
  m_antigen_count          : Z;       (* int64_t *)
  m_antigen_present        : bool;
  m_antibody_type          : Enum;
  m_antibody_variant       : Z        (* int *)
}.

Definition set_capacity (ab : t) (x : float) : t :=
  {| m_antibody_capacity := x;
     m_antibody_concentration := m_antibody_concentration ab;
     m_antigen_count := m_antigen_count ab;
     m_antigen_present := m_antigen_present ab;
     m_antibody_type := m_antibody_type ab;
     m_antibody_variant := m_antibody_variant ab |}.

Definition set_concentration (ab : t) (x : float) : t :=
  {| m_antibody_capacity := m_antibody_capacity ab;
     m_antibody_concentration := x;
     m_antigen_count := m_antigen_count ab;
     m_antigen_present := m_antigen_present ab;
     m_antibody_type := m_antibody_type ab;
     m_antibody_variant := m_antibody_variant ab |}.

Definition set_antigen_count (ab : t) (n : Z) : t :=
  {| m_antibody_capacity := m_antibody_capacity ab;
     m_antibody_concentration := m_antibody_concentration ab;
     m_antigen_count := n;
     m_antigen_present := m_antigen_present ab;
     m_antibody_type := m_antibody_type ab;
     m_antibody_variant := m_antibody_variant ab |}.

Definition set_antigen_present (ab : t) (b : bool) : t :=
  {| m_antibody_capacity := m_antibody_capacity ab;
     m_antibody_concentration := m_antibody_concentration ab;
     m_antigen_count := m_antigen_count ab;
     m_antigen_present := b;
     m_antibody_type := m_antibody_type ab;
     m_antibody_variant := m_antibody_variant ab |}.

Definition set_type (ab : t) (e : Enum) : t :=
  {| m_antibody_capacity := m_antibody_capacity ab;
     m_antibody_concentration := m_antibody_concentration ab;
     m_antigen_count := m_antigen_count ab;
     m_antigen_present := m_antigen_present ab;
     m_antibody_type := e;
     m_antibody_variant := m_antibody_variant ab |}.

Definition set_variant (ab : t) (v : Z) : t :=
  {| m_antibody_capacity := m_antibody_capacity ab;
     m_antibody_concentration := m_antibody_concentration ab;
     m_antigen_count := m_antigen_count ab;
     m_antigen_present := m_antigen_present ab;
     m_antibody_type := m_antibody_type ab;
     m_antibody_variant := v |}.

(** [MalariaAntibody::MalariaAntibody()]: the member initialisers set the
    two counters; [raw] is the storage the object is built in, whose other
    four members the constructor leaves as they are. *)
Definition ctor (raw : t) : t :=
  let ab := set_antigen_count raw 0 in
  let ab := set_antigen_present ab false in
  ab.

Definition Initialize (type : Enum) (variant : Z) (capacity concentration : float)
           (ab : t) : t :=
  let ab := set_type ab type in
  let ab := set_variant ab variant in
  let ab := set_capacity ab capacity in
  let ab := set_concentration ab concentration in
  ab.

Definition Decay (dt : float) (params : SusceptibilityMalariaConfig) (ab : t) : t :=
  (* don't do multiplication and subtraction unless antibody levels non-trivial *)
  let ab :=
    if d_gt (f2d (m_antibody_concentration ab)) NON_TRIVIAL_ANTIBODY_THRESHOLD
    then set_concentration ab
           (m_antibody_concentration ab
            - m_antibody_concentration ab * TWENTY_DAY_DECAY_CONSTANT * dt)
    else ab in
  (* antibody capacity decays to a medium value *)
  let ab :=
    if m_antibody_capacity ab >? memory_level params
    then set_capacity ab
           (m_antibody_capacity ab
            - (m_antibody_capacity ab - memory_level params)
              * hyperimmune_decay_rate params * dt)
    else ab in
  ab.

(** The method is not [const]; the pair holds the returned value and the
    object after the call. *)
Definition StimulateCytokines (dt inv_uL_blood : float) (ab : t) : float * t :=
  ((i2f 1 - m_antibody_concentration ab) * i2f (m_antigen_count ab) * inv_uL_blood,
   ab).

(** [UpdateAntibodyCapacity( float dt, SusceptibilityMalariaConfig* params,
    float inv_uL_blood )] *)
Definition UpdateAntibodyCapacity (dt : float) (params : SusceptibilityMalariaConfig)
           (inv_uL_blood : float) (ab : t) : t :=
  let growth_rate := MSP1_antibody_growthrate params in
  let threshold   := antibody_stimulation_c50 params in
  let ab := set_capacity ab
              (m_antibody_capacity ab
               + growth_rate * (f_lit 1 - m_antibody_capacity ab)
                 * d2f (Sigmoid.basic_sigmoid (f2d threshold)
                          (f2d (i2f (m_antigen_count ab) * inv_uL_blood)))) in
  (* rapid B cell proliferation above a threshold given stimulation *)
  let ab :=
    if d_gt (f2d (m_antibody_capacity ab)) B_CELL_PROLIFERATION_THRESHOLD
    then set_capacity ab
           (m_antibody_capacity ab
            + (f_lit 1 - m_antibody_capacity ab) * B_CELL_PROLIFERATION_CONSTANT * dt)
    else ab in
  let ab :=
    if d_gt (f2d (m_antibody_capacity ab)) (d_lit 1)
    then set_capacity ab (d2f (d_lit 1))
    else ab in
  ab.

(** The overload [UpdateAntibodyCapacity( float dt, float growth_rate )]. *)
Definition UpdateAntibodyCapacity_rate (dt growth_rate : float) (ab : t) : t :=
  let ab := set_capacity ab
              (m_antibody_capacity ab
               + growth_rate * dt * (i2f 1 - m_antibody_capacity ab)) in
  let ab :=
    if d_gt (f2d (m_antibody_capacity ab)) (d_lit 1)
    then set_capacity ab (d2f (d_lit 1))
    else ab in
  ab.

Definition UpdateAntibodyConcentration (dt : float)
           (params : SusceptibilityMalariaConfig) (ab : t) : t :=
  (* antibodies released after capacity passes 0.3 *)
  let ab :=
    if d_gt (f2d (m_antibody_capacity ab)) ANTIBODY_RELEASE_THRESHOLD
    then set_concentration ab
           (m_antibody_concentration ab
            + (m_antibody_capacity ab - m_antibody_concentration ab)
              * i2f ANTIBODY_RELEASE_FACTOR * dt)
    else ab in
  let ab :=
    if m_antibody_concentration ab >? m_antibody_capacity ab
    then set_concentration ab (m_antibody_capacity ab)
    else ab in
  ab.

Definition ResetCounters (ab : t) : t :=
  let ab := set_antigen_present ab false in
  let ab := set_antigen_count ab 0 in
  ab.

Definition IncreaseAntigenCount (antigenCount : Z) (ab : t) : t :=
  if (antigenCount >? 0)%Z
  then
    let ab := set_antigen_count ab
                (int64_wrap (m_antigen_count ab + antigenCount)) in
    let ab := set_antigen_present ab true in
    ab
  else ab.

Definition SetAntigenicPresence (antigenPresent : bool) (ab : t) : t :=
  set_antigen_present ab antigenPresent.

Definition GetAntigenCount (ab : t) : Z := m_antigen_count ab.
Definition GetAntigenicPresence (ab : t) : bool := m_antigen_present ab.
Definition GetAntibodyCapacity (ab : t) : float := m_antibody_capacity ab.
Definition GetAntibodyConcentration (ab : t) : float := m_antibody_concentration ab.
Definition SetAntibodyCapacity (antibody_capacity : float) (ab : t) : t :=
  set_capacity ab antibody_capacity.
Definition SetAntibodyConcentration (antibody_concentration : float) (ab : t) : t :=
  set_concentration ab antibody_concentration.
Definition GetAntibodyType (ab : t) : Enum := m_antibody_type ab.
Definition GetAntibodyVariant (ab : t) : Z := m_antibody_variant ab.

Definition JSerialize (root : Json.IJsonObjectAdapter) (ab : t)
  : Json.IJsonObjectAdapter :=
  let root := Json.BeginObject root in
  let root := Json.Insert "m_antibody_capacity"
                (Json.Real (m_antibody_capacity ab)) root in
  let root := Json.Insert "m_antibody_concentration"
                (Json.Real (m_antibody_concentration ab)) root in
  let root := Json.Insert "m_antigen_count"
                (Json.Int64 (m_antigen_count ab)) root in
  let root := Json.Insert "m_antigen_present"
                (Json.Bool (m_antigen_present ab)) root in
  let root := Json.Insert "m_antibody_type"
                (Json.Int (to_int (m_antibody_type ab))) root in
  let root := Json.Insert "m_antibody_variant"
                (Json.Int (m_antibody_variant ab)) root in
  Json.EndObject root.

(** The whole body of [JDeserialize] stands between [#if 0] and [#endif]:
    the compiled function has no statement. *)
Definition JDeserialize (root : Json.IJsonObjectAdapter) (ab : t) : t := ab.
End Methods.

Arguments t {FA}.
End MalariaAntibody.

(** ** The two other serialization paths of the file *)

(** Neither is what [JDeserialize] executes; both show how the six members
    are meant to come back. *)

Module Excluded.
Import MalariaAntibody.
Section Excluded.
Context {FA : FloatArith}.

(** [static_cast<MalariaAntibodyType::Enum>] of a serialized code. *)
Definition of_int (z : Z) : option MalariaAntibodyType.Enum :=
  if (z =? 0)%Z then Some MalariaAntibodyType.CSP
  else if (z =? 1)%Z then Some MalariaAntibodyType.MSP1
  else if (z =? 2)%Z then Some MalariaAntibodyType.PfEMP1_minor
  else if (z =? 3)%Z then Some MalariaAntibodyType.PfEMP1_major
  else None.

(** The six assignments that stand between [#if 0] and [#endif] in
    [MalariaAntibody::JDeserialize]; [None] when a member is missing or has
    another type. *)
Definition JDeserialize_body (root : Json.IJsonObjectAdapter) (ab : t) : option t :=
  match Json.FindValue root "m_antibody_capacity",
        Json.FindValue root "m_antibody_concentration",
        Json.FindValue root "m_antigen_count",
        Json.FindValue root "m_antigen_present",
        Json.FindValue root "m_antibody_type",
        Json.FindValue root "m_antibody_variant" with
  | Some (Json.Real capacity), Some (Json.Real concentration),
    Some (Json.Int64 count), Some (Json.Bool present),
    Some (Json.Int type), Some (Json.Int variant) =>
      match of_int type with
      | Some e =>
          let ab := set_capacity ab capacity in
          let ab := set_concentration ab concentration in
          let ab := set_antigen_count ab count in
          let ab := set_antigen_present ab present in
          let ab := set_type ab e in
          let ab := set_variant ab variant in
          Some ab
      | None => None
      end
  | _, _, _, _, _, _ => None
  end.
End Excluded.
End Excluded.

Module Boost.
Import MalariaAntibody.
Section Archive.
Context {FA : FloatArith}.

Inductive Item : Type :=
| ItFloat (x : float)
| ItInt64 (z : Z)
| ItBool  (b : bool)
| ItEnum  (e : MalariaAntibodyType.Enum)
| ItInt   (z : Z).

(** Modelled: Boost.Serialization is not part of the sources.  An archive is
    taken to be the sequence of the items written to it: a saving archive
    holds what has been written, a loading archive what is still to be
    read. *)
Inductive Archive : Type :=
| Saving  (written : list Item)
| Loading (unread : list Item).

(** Modelled: [ar & x].  A saving archive appends [x]; a loading archive
    replaces [x] by the next item, and is taken to fail when that item is
    missing or of another type. *)
Definition amp_float (ar : Archive) (x : float) : option (Archive * float) :=
  match ar with
  | Saving w => Some (Saving (w ++ [ItFloat x]), x)
  | Loading (ItFloat y :: rest) => Some (Loading rest, y)
  | Loading _ => None
  end.

Definition amp_int64 (ar : Archive) (x : Z) : option (Archive * Z) :=
  match ar with
  | Saving w => Some (Saving (w ++ [ItInt64 x]), x)
  | Loading (ItInt64 y :: rest) => Some (Loading rest, y)
  | Loading _ => None
  end.

Definition amp_bool (ar : Archive) (x : bool) : option (Archive * bool) :=
  match ar with
  | Saving w => Some (Saving (w ++ [ItBool x]), x)
  | Loading (ItBool y :: rest) => Some (Loading rest, y)
  | Loading _ => None
  end.

Definition amp_enum (ar : Archive) (x : MalariaAntibodyType.Enum)
  : option (Archive * MalariaAntibodyType.Enum) :=
  match ar with
  | Saving w => Some (Saving (w ++ [ItEnum x]), x)
  | Loading (ItEnum y :: rest) => Some (Loading rest, y)
  | Loading _ => None
  end.

Definition amp_int (ar : Archive) (x : Z) : option (Archive * Z) :=
  match ar with
  | Saving w => Some (Saving (w ++ [ItInt x]), x)
  | Loading (ItInt y :: rest) => Some (Loading rest, y)
  | Loading _ => None
  end.

Definition bind {A B : Type} (c : option A) (k : A -> option B) : option B :=
  match c with
  | Some a => k a
  | None => None
  end.

(** [template<class Archive> void serialize(Archive &ar, MalariaAntibody &ab,
    const unsigned int v)]; the four subclass templates forward to it. *)
Definition serialize (ar : Archive) (ab : t) : option (Archive * t) :=
  bind (amp_float ar (m_antibody_capacity ab)) (fun '(ar, capacity) =>
  bind (amp_float ar (m_antibody_concentration ab)) (fun '(ar, concentration) =>
  bind (amp_int64 ar (m_antigen_count ab)) (fun '(ar, count) =>
  bind (amp_bool ar (m_antigen_present ab)) (fun '(ar, present) =>
  bind (amp_enum ar (m_antibody_type ab)) (fun '(ar, type) =>
  bind (amp_int ar (m_antibody_variant ab)) (fun '(ar, variant) =>
  Some (ar,
        {| m_antibody_capacity := capacity;
           m_antibody_concentration := concentration;
           m_antigen_count := count;
           m_antigen_present := present;
           m_antibody_type := type;
           m_antibody_variant := variant |}))))))).
End Archive.
End Boost.

(** ** Objects and their dynamic class *)

(** The class an object was constructed as; it selects the overrides. *)
Inductive DynamicClass : Set :=
| Class_MalariaAntibody
| Class_MalariaAntibodyCSP
| Class_MalariaAntibodyMSP
| Class_MalariaAntibodyPfEMP1Minor
| Class_MalariaAntibodyPfEMP1Major.

(** What an [IMalariaAntibody*] points to. *)
Record Object {FA : FloatArith} : Type := {
  class_of : DynamicClass;
  members  : MalariaAntibody.t
}.

Section DefaultArgument.
Context {FA : FloatArith}.
(** Modelled from the spec: the four factories call [Initialize] with three
    arguments; the default of the fourth is declared in MalariaAntibody.h,
    which is not part of the sources.  The specification gives
    [Initialize(type, variant, capacity, concentration=0)]. *)
Definition Initialize_default_concentration : float := f_lit 0.
End DefaultArgument.

(** ** The subclasses *)

Module MalariaAntibodyCSP.
Import MalariaAntibody.
Section Methods.
Context {FA : FloatArith}.
Local Open Scope flt_scope.

Definition Decay (dt : float) (params : SusceptibilityMalariaConfig) (ab : t) : t :=
  (* allow the decay of anti-CSP concentrations greater than unity *)
  if m_antibody_concentration ab >? m_antibody_capacity ab
  then set_concentration ab
         (m_antibody_concentration ab
          - m_antibody_concentration ab * dt / antibody_csp_decay_days params)
  else
    (* otherwise do the normal behavior *)
    MalariaAntibody.Decay dt params ab.

Definition UpdateAntibodyConcentration (dt : float)
           (params : SusceptibilityMalariaConfig) (ab : t) : t :=
  if m_antibody_concentration ab >? m_antibody_capacity ab
  then set_concentration ab
         (m_antibody_concentration ab
          - m_antibody_concentration ab * dt / antibody_csp_decay_days params)
  else
    MalariaAntibody.UpdateAntibodyConcentration dt params ab.

Definition CreateAntibody (variant : Z) (capacity : float) (raw : t) : Object :=
  let antibody := ctor raw in
  let antibody := Initialize MalariaAntibodyType.CSP variant capacity
                    Initialize_default_concentration antibody in
  {| class_of := Class_MalariaAntibodyCSP; members := antibody |}.

Definition JSerialize (root : Json.IJsonObjectAdapter) (ab : t) :=
  MalariaAntibody.JSerialize root ab.
Definition JDeserialize (root : Json.IJsonObjectAdapter) (ab : t) : t :=
  MalariaAntibody.JDeserialize root ab.
End Methods.
End MalariaAntibodyCSP.

Module MalariaAntibodyMSP.
Import MalariaAntibody.
Section Methods.
Context {FA : FloatArith}.

Definition CreateAntibody (variant : Z) (capacity : float) (raw : t) : Object :=
  let antibody := ctor raw in
  let antibody := Initialize MalariaAntibodyType.MSP1 variant capacity
                    Initialize_default_concentration antibody in
  {| class_of := Class_MalariaAntibodyMSP; members := antibody |}.

Definition JSerialize (root : Json.IJsonObjectAdapter) (ab : t) :=
  MalariaAntibody.JSerialize root ab.
Definition JDeserialize (root : Json.IJsonObjectAdapter) (ab : t) : t :=
  MalariaAntibody.JDeserialize root ab.
End Methods.
End MalariaAntibodyMSP.

Module MalariaAntibodyPfEMP1Minor.
Import MalariaAntibody.
Section Methods.
Context {FA : FloatArith}.
Local Open Scope flt_scope.

Definition UpdateAntibodyCapacity (dt : float) (params : SusceptibilityMalariaConfig)
           (inv_uL_blood : float) (ab : t) : t :=
  let min_stimulation :=
    antibody_stimulation_c50 params * minimum_adapted_response params in
  let growth_rate :=
    antibody_capacity_growthrate params * non_specific_growth params in
  let threshold := antibody_stimulation_c50 params in
  let ab :=
    if d_le (f2d (m_antibody_capacity ab)) B_CELL_PROLIFERATION_THRESHOLD
    then set_capacity ab
           (m_antibody_capacity ab
            + growth_rate * dt * (f_lit 1 - m_antibody_capacity ab)
              * d2f (Sigmoid.basic_sigmoid (f2d threshold)
                       (f2d (i2f (m_antigen_count ab) * inv_uL_blood
                             + min_stimulation))))
    else
      (* rapid B cell proliferation above a threshold given stimulation *)
      set_capacity ab
        (m_antibody_capacity ab
         + (f_lit 1 - m_antibody_capacity ab) * B_CELL_PROLIFERATION_CONSTANT * dt) in
  let ab :=
    if d_gt (f2d (m_antibody_capacity ab)) (d_lit 1)
    then set_capacity ab (d2f (d_lit 1))
    else ab in
  ab.

Definition CreateAntibody (variant : Z) (capacity : float) (raw : t) : Object :=
  let antibody := ctor raw in
  let antibody := Initialize MalariaAntibodyType.PfEMP1_minor variant capacity
                    Initialize_default_concentration antibody in
  {| class_of := Class_MalariaAntibodyPfEMP1Minor; members := antibody |}.

Definition JSerialize (root : Json.IJsonObjectAdapter) (ab : t) :=
  MalariaAntibody.JSerialize root ab.
Definition JDeserialize (root : Json.IJsonObjectAdapter) (ab : t) : t :=
  MalariaAntibody.JDeserialize root ab.
End Methods.
End MalariaAntibodyPfEMP1Minor.

Module MalariaAntibodyPfEMP1Major.
Import MalariaAntibody.
Section Methods.
Context {FA : FloatArith}.
Local Open Scope flt_scope.

Definition UpdateAntibodyCapacity (dt : float) (params : SusceptibilityMalariaConfig)
           (inv_uL_blood : float) (ab : t) : t :=
  let min_stimulation :=
    antibody_stimulation_c50 params * minimum_adapted_response params in
  let growth_rate := antibody_capacity_growthrate params in
  let threshold := antibody_stimulation_c50 params in
  if d_le (f2d (m_antibody_capacity ab)) B_CELL_PROLIFERATION_THRESHOLD
  then
    (* ability and number of B-cells to produce antibodies, with saturation *)
    let ab := set_capacity ab
                (m_antibody_capacity ab
                 + growth_rate * dt * (f_lit 1 - m_antibody_capacity ab)
                   * d2f (Sigmoid.basic_sigmoid (f2d threshold)
                            (f2d (i2f (m_antigen_count ab) * inv_uL_blood
                                  + min_stimulation)))) in
    (* check for antibody capacity out of range *)
    let ab :=
      if d_gt (f2d (m_antibody_capacity ab)) (d_lit 1)
      then set_capacity ab (d2f (d_lit 1))
      else ab in
    ab
  else
    (* rapid B cell proliferation above a threshold given stimulation *)
    set_capacity ab
      (m_antibody_capacity ab
       + (f_lit 1 - m_antibody_capacity ab) * B_CELL_PROLIFERATION_CONSTANT * dt).

Definition CreateAntibody (variant : Z) (capacity : float) (raw : t) : Object :=
  let antibody := ctor raw in
  let antibody := Initialize MalariaAntibodyType.PfEMP1_major variant capacity
                    Initialize_default_concentration antibody in
  {| class_of := Class_MalariaAntibodyPfEMP1Major; members := antibody |}.

Definition JSerialize (root : Json.IJsonObjectAdapter) (ab : t) :=
  MalariaAntibody.JSerialize root ab.
Definition JDeserialize (root : Json.IJsonObjectAdapter) (ab : t) : t :=
  MalariaAntibody.JDeserialize root ab.
End Methods.
End MalariaAntibodyPfEMP1Major.

(** ** Calls through [IMalariaAntibody*]: virtual dispatch *)

Module IMalariaAntibody.
Section Dispatch.
Context {FA : FloatArith}.

Definition on_members (f : MalariaAntibody.t -> MalariaAntibody.t) (o : Object)
  : Object := {| class_of := class_of o; members := f (members o) |}.

Definition Decay (dt : float) (params : SusceptibilityMalariaConfig) (o : Object)
  : Object :=
  match class_of o with
  | Class_MalariaAntibodyCSP => on_members (MalariaAntibodyCSP.Decay dt params) o
  | _ => on_members (MalariaAntibody.Decay dt params) o
  end.

Definition StimulateCytokines (dt inv_uL_blood : float) (o : Object)
  : float * Object :=
  let (r, ab) := MalariaAntibody.StimulateCytokines dt inv_uL_blood (members o) in
  (r, {| class_of := class_of o; members := ab |}).

Definition UpdateAntibodyCapacity (dt : float) (params : SusceptibilityMalariaConfig)
           (inv_uL_blood : float) (o : Object) : Object :=
  match class_of o with
  | Class_MalariaAntibodyPfEMP1Minor =>
      on_members (MalariaAntibodyPfEMP1Minor.UpdateAntibodyCapacity
                    dt params inv_uL_blood) o
  | Class_MalariaAntibodyPfEMP1Major =>
      on_members (MalariaAntibodyPfEMP1Major.UpdateAntibodyCapacity
                    dt params inv_uL_blood) o
  | _ => on_members (MalariaAntibody.UpdateAntibodyCapacity
                       dt params inv_uL_blood) o
  end.

Definition UpdateAntibodyCapacity_rate (dt growth_rate : float) (o : Object)
  : Object :=
  on_members (MalariaAntibody.UpdateAntibodyCapacity_rate dt growth_rate) o.

Definition UpdateAntibodyConcentration (dt : float)
           (params : SusceptibilityMalariaConfig) (o : Object) : Object :=
  match class_of o with
  | Class_MalariaAntibodyCSP =>
      on_members (MalariaAntibodyCSP.UpdateAntibodyConcentration dt params) o
  | _ => on_members (MalariaAntibody.UpdateAntibodyConcentration dt params) o
  end.

Definition ResetCounters (o : Object) : Object :=
  on_members MalariaAntibody.ResetCounters o.

Definition IncreaseAntigenCount (antigenCount : Z) (o : Object) : Object :=
  on_members (MalariaAntibody.IncreaseAntigenCount antigenCount) o.

Definition SetAntigenicPresence (antigenPresent : bool) (o : Object) : Object :=
  on_members (MalariaAntibody.SetAntigenicPresence antigenPresent) o.

Definition JSerialize (root : Json.IJsonObjectAdapter) (o : Object)
  : Json.IJsonObjectAdapter :=
  match class_of o with
  | Class_MalariaAntibody => MalariaAntibody.JSerialize root (members o)
  | Class_MalariaAntibodyCSP => MalariaAntibodyCSP.JSerialize root (members o)
  | Class_MalariaAntibodyMSP => MalariaAntibodyMSP.JSerialize root (members o)
  | Class_MalariaAntibodyPfEMP1Minor =>
      MalariaAntibodyPfEMP1Minor.JSerialize root (members o)
  | Class_MalariaAntibodyPfEMP1Major =>
      MalariaAntibodyPfEMP1Major.JSerialize root (members o)
  end.

Definition JDeserialize (root : Json.IJsonObjectAdapter) (o : Object) : Object :=
  match class_of o with
  | Class_MalariaAntibody => on_members (MalariaAntibody.JDeserialize root) o
  | Class_MalariaAntibodyCSP => on_members (MalariaAntibodyCSP.JDeserialize root) o
  | Class_MalariaAntibodyMSP => on_members (MalariaAntibodyMSP.JDeserialize root) o
  | Class_MalariaAntibodyPfEMP1Minor =>
      on_members (MalariaAntibodyPfEMP1Minor.JDeserialize root) o
  | Class_MalariaAntibodyPfEMP1Major =>
      on_members (MalariaAntibodyPfEMP1Major.JDeserialize root) o
  end.
End Dispatch.
End IMalariaAntibody.

(** ** Vocabulary of the statements *)

Section Vocabulary.
Context {FA : FloatArith}.
Import MalariaAntibody.

(** [ab'] has the type tag, the variant and both antigen counters of [ab]. *)
Definition same_identity_and_counters (ab ab' : t) : Prop :=
  m_antibody_type ab' = m_antibody_type ab
  /\ m_antibody_variant ab' = m_antibody_variant ab
  /\ m_antigen_count ab' = m_antigen_count ab
  /\ m_antigen_present ab' = m_antigen_present ab.

(** [ab'] has the capacity, the concentration, the type tag and the variant
    of [ab]. *)
Definition same_kinetics_and_identity (ab ab' : t) : Prop :=
  m_antibody_capacity ab' = m_antibody_capacity ab
  /\ m_antibody_concentration ab' = m_antibody_concentration ab
  /\ m_antibody_type ab' = m_antibody_type ab
  /\ m_antibody_variant ab' = m_antibody_variant ab.

(** The six serialized members agree. *)
Definition same_six_fields (ab ab' : t) : Prop :=
  m_antibody_capacity ab' = m_antibody_capacity ab
  /\ m_antibody_concentration ab' = m_antibody_concentration ab
  /\ m_antigen_count ab' = m_antigen_count ab
  /\ m_antigen_present ab' = m_antigen_present ab
  /\ m_antibody_type ab' = m_antibody_type ab
  /\ m_antibody_variant ab' = m_antibody_variant ab.

(** Export of [original], then import into [fresh]. *)
Definition json_round_trip (original fresh : Object) : Object :=
  IMalariaAntibody.JDeserialize (IMalariaAntibody.JSerialize [] original) fresh.
End Vocabulary.

(** ** Concrete lineages and configurations, in the exact arithmetic *)

Module Examples.
Import MalariaAntibody.

Definition lineage (capacity concentration : Q) (count : Z) (present : bool)
           (type : MalariaAntibodyType.Enum) (variant : Z) : t (FA := exact) :=
  @Build_t exact capacity concentration count present type variant.

Definition config (memory hyper csp_days msp1 c50 adapted nonspec growth : Q)
  : SusceptibilityMalariaConfig (FA := exact) :=
  @Build_SusceptibilityMalariaConfig exact
    memory hyper csp_days msp1 c50 adapted nonspec growth.

Definition object (c : DynamicClass) (ab : t (FA := exact)) : Object (FA := exact) :=
  @Build_Object exact c ab.

(** Storage before construction: any content will do. *)
Definition raw : t (FA := exact) :=
  lineage 0 0 0 false MalariaAntibodyType.CSP 0.

(** A typical configuration. *)
Definition params : SusceptibilityMalariaConfig (FA := exact) :=
  config 0.3 0.01 90 0.05 20 0.02 0.5 0.09.

(** An MSP lineage in the middle of a cycle. *)
Definition msp_busy : Object (FA := exact) :=
  object Class_MalariaAntibodyMSP
         (lineage 0.5 0.25 7 true MalariaAntibodyType.MSP1 3).

(** Scenario A of the specification: capacity 0.2, 1000 antigens. *)
Definition scenario_A : t (FA := exact) :=
  lineage 0.2 0 1000 true MalariaAntibodyType.MSP1 0.

(** A configuration whose MSP1 growth rate is 4. *)
Definition fast_growth_params : SusceptibilityMalariaConfig (FA := exact) :=
  config 0.3 0.01 90 4 20 0.02 0.5 0.09.

(** An MSP lineage at half capacity with 20 antigens counted. *)
Definition msp_half : Object (FA := exact) :=
  object Class_MalariaAntibodyMSP
         (lineage 0.5 0 20 true MalariaAntibodyType.MSP1 0).

(** A PfEMP1-Major lineage at half capacity, above the threshold. *)
Definition major_half : Object (FA := exact) :=
  object Class_MalariaAntibodyPfEMP1Major
         (lineage 0.5 0 0 false MalariaAntibodyType.PfEMP1_major 0).

(** A CSP lineage boosted to concentration 2 over capacity 0.5. *)
Definition csp_boosted : t (FA := exact) :=
  lineage 0.5 2 0 false MalariaAntibodyType.CSP 0.

(** A CSP lineage in its normal range. *)
Definition csp_normal : t (FA := exact) :=
  lineage 0.5 0.25 0 false MalariaAntibodyType.CSP 0.
End Examples.

(** ** The same lineages and configurations, in the machine arithmetic *)

Module Binary32.
Import MalariaAntibody.

(** The [float] a decimal literal denotes. *)
Definition lit (q : Q) : @float ieee := @f_lit ieee q.

Definition lineage (capacity concentration : Q) (count : Z) (present : bool)
           (type : MalariaAntibodyType.Enum) (variant : Z) : t (FA := ieee) :=
  @Build_t ieee (lit capacity) (lit concentration) count present type variant.

Definition config (memory hyper csp_days msp1 c50 adapted nonspec growth : Q)
  : SusceptibilityMalariaConfig (FA := ieee) :=
  @Build_SusceptibilityMalariaConfig ieee
    (lit memory) (lit hyper) (lit csp_days) (lit msp1) (lit c50) (lit adapted)
    (lit nonspec) (lit growth).

Definition object (c : DynamicClass) (ab : t (FA := ieee)) : Object (FA := ieee) :=
  @Build_Object ieee c ab.

Definition params : SusceptibilityMalariaConfig (FA := ieee) :=
  config 0.3 0.01 90 0.05 20 0.02 0.5 0.09.

Definition scenario_A : t (FA := ieee) :=
  lineage 0.2 0 1000 true MalariaAntibodyType.MSP1 0.


Definition fast_growth_params : SusceptibilityMalariaConfig (FA := ieee) :=
  config 0.3 0.01 90 4 20 0.02 0.5 0.09.

Definition msp_half : Object (FA := ieee) :=
  object Class_MalariaAntibodyMSP
         (lineage 0.5 0 20 true MalariaAntibodyType.MSP1 0).

Definition major_half : Object (FA := ieee) :=
  object Class_MalariaAntibodyPfEMP1Major
         (lineage 0.5 0 0 false MalariaAntibodyType.PfEMP1_major 0).

(** [x] is a finite float whose value lies strictly between [lo] and [hi]. *)
Definition between (lo hi : Q) (x : spec_float) : bool :=
  match SF_to_Q x with
  | Some q => negb (Qle_bool q lo) && negb (Qle_bool hi q)
  | None => false
  end.

(** The constant 1.0f, and the [double] 0.4 of the proliferation
    threshold. *)
Definition one : @float ieee := Eval vm_compute in lit 1.
Definition threshold : @double ieee :=
  Eval vm_compute in @B_CELL_PROLIFERATION_THRESHOLD ieee.

(** What a [float] variable can hold: [spec_float] has more finite values
    than binary32, [valid_binary] keeps those of the format. *)
Definition is_float (x : spec_float) : bool := valid_binary 24 128 x.

(** The test [0 <= x]: true of both zeros, of the positive numbers and of
    plus infinity, false of NaN. *)
Definition nonneg (x : spec_float) : bool := SFleb (S754_zero false) x.

(** A [float] with [0 <= k <= 1]. *)
Definition in_unit_interval (k : spec_float) : bool :=
  is_float k && nonneg k && SFleb k one.

(** [0 <= p] for each parameter [p] the growth laws of the PfEMP1 classes
    read. *)
Definition nonneg_config (params : SusceptibilityMalariaConfig (FA := ieee)) : bool :=
  nonneg (antibody_stimulation_c50 params)
  && nonneg (minimum_adapted_response params)
  && nonneg (non_specific_growth params)
  && nonneg (antibody_capacity_growthrate params).

Definition csp_boosted : t (FA := ieee) :=
  lineage 0.5 2 0 false MalariaAntibodyType.CSP 0.

Definition csp_normal : t (FA := ieee) :=
  lineage 0.5 0.25 0 false MalariaAntibodyType.CSP 0.

(** A boosted CSP lineage whose product [concentration * dt] overflows. *)
Definition csp_huge : t (FA := ieee) :=
  lineage 0.5 1e30 0 false MalariaAntibodyType.CSP 0.

Definition slow_csp_params : SusceptibilityMalariaConfig (FA := ieee) :=
  config 0.3 0.01 1e10 0.05 20 0.02 0.5 0.09.

Definition msp_infinite : t (FA := ieee) :=
  @Build_t ieee (lit 0.5) (S754_infinity false) 0 false MalariaAntibodyType.MSP1 0.

Definition msp_low : t (FA := ieee) :=
  lineage 0.5 (-3e38) 0 false MalariaAntibodyType.MSP1 0.

Definition msp_full : Object (FA := ieee) :=
  object Class_MalariaAntibodyMSP (lineage 1 0 0 false MalariaAntibodyType.MSP1 0).

Definition minor_low : t (FA := ieee) :=
  lineage 0.2 0 5 true MalariaAntibodyType.PfEMP1_minor 0.

Definition minor_at_0_4f : t (FA := ieee) :=
  lineage 0.4 0 0 false MalariaAntibodyType.PfEMP1_minor 0.
End Binary32.

(** ** The laws in the words of the specification, over the rationals *)

Module Law.
Import MalariaAntibody.
Local Open Scope Q_scope.

(** [sigmoid(c50, x) = x / (x + c50)] *)
Definition sigmoid (c50 x : Q) : Q := x / (x + c50).

(** "Clamp to at most 1.0". *)
Definition clamp_to_one (x : Q) : Q := if Qlt_le_dec 1 x then 1 else x.



(** The two terms of the PfEMP1 laws. *)
Definition stimulated_growth (dt growth_rate c50 min_stimulation inv_uL_blood k : Q)
           (antigen_count : Z) : Q :=
  growth_rate * dt * (1 - k)
  * sigmoid c50 (inject_Z antigen_count * inv_uL_blood + min_stimulation).

Definition rapid_growth (dt k : Q) : Q := (1 - k) * 0.33 * dt.

(** PfEMP1-Minor: the stimulated term up to 0.4, the rapid term above. *)
Definition minor_capacity (dt : Q) (params : SusceptibilityMalariaConfig (FA := exact))
           (inv_uL_blood k : Q) (antigen_count : Z) : Q :=
  let growth_rate := antibody_capacity_growthrate params * non_specific_growth params in
  let min_stimulation :=
    antibody_stimulation_c50 params * minimum_adapted_response params in
  clamp_to_one
    (if Qlt_le_dec 0.4 k
     then k + rapid_growth dt k
     else k + stimulated_growth dt growth_rate (antibody_stimulation_c50 params)
                min_stimulation inv_uL_blood k antigen_count).

(** PfEMP1-Major: the same two regimes with the growth rate unscaled, and the
    clamp in the stimulated regime only. *)
Definition major_capacity (dt : Q) (params : SusceptibilityMalariaConfig (FA := exact))
           (inv_uL_blood k : Q) (antigen_count : Z) : Q :=
  let growth_rate := antibody_capacity_growthrate params in
  let min_stimulation :=
    antibody_stimulation_c50 params * minimum_adapted_response params in
  if Qlt_le_dec 0.4 k
  then k + rapid_growth dt k
  else clamp_to_one
         (k + stimulated_growth dt growth_rate (antibody_stimulation_c50 params)
                min_stimulation inv_uL_blood k antigen_count).

(** Every parameter the growth laws read is non-negative. *)
Definition nonneg_config (params : SusceptibilityMalariaConfig (FA := exact)) : Prop :=
  0 <= MSP1_antibody_growthrate params
  /\ 0 <= antibody_stimulation_c50 params
  /\ 0 <= minimum_adapted_response params
  /\ 0 <= non_specific_growth params
  /\ 0 <= antibody_capacity_growthrate params.

(** The capacity lies in [0, 1]. *)
Definition in_unit_interval (k : Q) : Prop := 0 <= k /\ k <= 1.
End Law.

(** ** The closed form of C2 *)

Module Claimed.
Section Claimed.
Context {FA : FloatArith}.
Local Open Scope flt_scope.

(** [concentration * (1 - dt / antibody_csp_decay_days)], evaluated with the
    operations of the program's arithmetic. *)
Definition csp_concentration (c dt days : float) : float :=
  c * (f_lit 1 - dt / days).
End Claimed.
End Claimed.

(** ** Sequences of calls *)

Section Sequences.
Context {FA : FloatArith}.

(** [IncreaseAntigenCount] called once for each element of [ns], in order. *)
Definition IncreaseAntigenCount_all (ns : list Z) (o : Object) : Object :=
  fold_left (fun o n => IMalariaAntibody.IncreaseAntigenCount n o) ns o.

(** The sum of the strictly positive elements of [ns]. *)
Definition sum_positive (ns : list Z) : Z :=
  fold_right (fun n s => ((if (n >? 0)%Z then n else 0) + s)%Z) 0%Z ns.

Definition any_positive (ns : list Z) : bool :=
  existsb (fun n => (n >? 0)%Z) ns.

(** The calls a host can make on a lineage, [SetAntigenicPresence] apart. *)
Inductive Call : Type :=
| CallDecay (dt : float) (params : SusceptibilityMalariaConfig)
| CallStimulateCytokines (dt inv_uL_blood : float)
| CallUpdateAntibodyCapacity (dt : float) (params : SusceptibilityMalariaConfig)
                             (inv_uL_blood : float)
| CallUpdateAntibodyCapacity_rate (dt growth_rate : float)
| CallUpdateAntibodyConcentration (dt : float) (params : SusceptibilityMalariaConfig)
| CallResetCounters
| CallIncreaseAntigenCount (antigenCount : Z)
| CallSetAntibodyCapacity (antibody_capacity : float)
| CallSetAntibodyConcentration (antibody_concentration : float).

Definition perform (c : Call) (o : Object) : Object :=
  match c with
  | CallDecay dt params => IMalariaAntibody.Decay dt params o
  | CallStimulateCytokines dt inv => snd (IMalariaAntibody.StimulateCytokines dt inv o)
  | CallUpdateAntibodyCapacity dt params inv =>
      IMalariaAntibody.UpdateAntibodyCapacity dt params inv o
  | CallUpdateAntibodyCapacity_rate dt g =>
      IMalariaAntibody.UpdateAntibodyCapacity_rate dt g o
  | CallUpdateAntibodyConcentration dt params =>
      IMalariaAntibody.UpdateAntibodyConcentration dt params o
  | CallResetCounters => IMalariaAntibody.ResetCounters o
  | CallIncreaseAntigenCount n => IMalariaAntibody.IncreaseAntigenCount n o
  | CallSetAntibodyCapacity x =>
      IMalariaAntibody.on_members (MalariaAntibody.SetAntibodyCapacity x) o
  | CallSetAntibodyConcentration x =>
      IMalariaAntibody.on_members (MalariaAntibody.SetAntibodyConcentration x) o
  end.

Definition perform_all (cs : list Call) (o : Object) : Object :=
  fold_left (fun o c => perform c o) cs o.

(** A counted antigen is flagged present. *)
Definition counted_is_present (ab : MalariaAntibody.t) : Prop :=
  MalariaAntibody.m_antigen_count ab <> 0%Z ->
  MalariaAntibody.m_antigen_present ab = true.

(** The configuration [params] with another [antibody_capacity_growthrate]. *)
Definition with_capacity_growthrate (params : SusceptibilityMalariaConfig)
           (g : float) : SusceptibilityMalariaConfig :=
  {| memory_level := memory_level params;
     hyperimmune_decay_rate := hyperimmune_decay_rate params;
     antibody_csp_decay_days := antibody_csp_decay_days params;
     MSP1_antibody_growthrate := MSP1_antibody_growthrate params;
     antibody_stimulation_c50 := antibody_stimulation_c50 params;
     minimum_adapted_response := minimum_adapted_response params;
     non_specific_growth := non_specific_growth params;
     antibody_capacity_growthrate := g |}.

(** The items [Boost.serialize] writes for one object. *)
Definition Boost_items (ab : MalariaAntibody.t) : list Boost.Item :=
  [Boost.ItFloat (MalariaAntibody.m_antibody_capacity ab);
   Boost.ItFloat (MalariaAntibody.m_antibody_concentration ab);
   Boost.ItInt64 (MalariaAntibody.m_antigen_count ab);
   Boost.ItBool (MalariaAntibody.m_antigen_present ab);
   Boost.ItEnum (MalariaAntibody.m_antibody_type ab);
   Boost.ItInt (MalariaAntibody.m_antibody_variant ab)].

(** Several objects saved one after the other into one Boost archive. *)
Fixpoint Boost_save_all (ar : Boost.Archive) (abs : list MalariaAntibody.t)
  : option Boost.Archive :=
  match abs with
  | [] => Some ar
  | ab :: rest =>
      match Boost.serialize ar ab with
      | Some (ar', _) => Boost_save_all ar' rest
      | None => None
      end
  end.

(** As many objects loaded from one archive, each into its own storage. *)
Fixpoint Boost_load_all (ar : Boost.Archive) (storage : list MalariaAntibody.t)
  : option (Boost.Archive * list MalariaAntibody.t) :=
  match storage with
  | [] => Some (ar, [])
  | fresh :: rest =>
      match Boost.serialize ar fresh with
      | Some (ar', ab) =>
          match Boost_load_all ar' rest with
          | Some (ar'', abs) => Some (ar'', ab :: abs)
          | None => None
          end
      | None => None
      end
  end.

(** One step of the boosted CSP regime:
    [concentration -= concentration * dt / antibody_csp_decay_days]. *)
Definition CSP_decay_step (dt : float) (params : SusceptibilityMalariaConfig)
           (c : float) : float :=
  (c - c * dt / antibody_csp_decay_days params)%flt.

(** One [Decay] ([true]) or one [UpdateAntibodyConcentration] ([false]). *)
Definition decay_or_release (dt : float) (params : SusceptibilityMalariaConfig)
           (which : bool) (o : Object) : Object :=
  if which then IMalariaAntibody.Decay dt params o
  else IMalariaAntibody.UpdateAntibodyConcentration dt params o.

Definition decay_or_release_all (dt : float) (params : SusceptibilityMalariaConfig)
           (ws : list bool) (o : Object) : Object :=
  fold_left (fun o w => decay_or_release dt params w o) ws o.
End Sequences.

(** * Properties *)

(** ** Laws of the control flow, in every arithmetic *)

(** Case analysis on the tests of a method, one at a time, in program order:
    a test is split once no earlier test occurs inside it. *)
Ltac split_test :=
  match goal with
  | |- context [if ?b then _ else _] =>
      lazymatch b with
      | context [if _ then _ else _] => fail
      | _ => destruct b
      end
  end.
Ltac split_tests := repeat (split_test; cbn).

Section ControlFlow.
Context {FA : FloatArith}.
Import MalariaAntibody.
Local Open Scope flt_scope.

Lemma set_concentration_frame (ab : t) (x : float) :
  same_identity_and_counters ab (set_concentration ab x).
Proof. repeat split. Qed.

Lemma Decay_frame dt params (ab : t) :
  same_identity_and_counters ab (MalariaAntibody.Decay dt params ab).
Proof. unfold MalariaAntibody.Decay. cbv zeta. split_tests; repeat split. Qed.

Lemma CSP_Decay_frame dt params (ab : t) :
  same_identity_and_counters ab (MalariaAntibodyCSP.Decay dt params ab).
Proof.
  unfold MalariaAntibodyCSP.Decay.
  destruct (m_antibody_concentration ab >? m_antibody_capacity ab).
  - apply set_concentration_frame.
  - apply Decay_frame.
Qed.

Lemma UpdateAntibodyCapacity_frame dt params inv (ab : t) :
  same_identity_and_counters ab
    (MalariaAntibody.UpdateAntibodyCapacity dt params inv ab).
Proof.
  unfold MalariaAntibody.UpdateAntibodyCapacity. cbv zeta.
  split_tests; repeat split.
Qed.

Lemma UpdateAntibodyCapacity_rate_frame dt g (ab : t) :
  same_identity_and_counters ab
    (MalariaAntibody.UpdateAntibodyCapacity_rate dt g ab).
Proof.
  unfold MalariaAntibody.UpdateAntibodyCapacity_rate. cbv zeta.
  split_tests; repeat split.
Qed.

Lemma Minor_UpdateAntibodyCapacity_frame dt params inv (ab : t) :
  same_identity_and_counters ab
    (MalariaAntibodyPfEMP1Minor.UpdateAntibodyCapacity dt params inv ab).
Proof.
  unfold MalariaAntibodyPfEMP1Minor.UpdateAntibodyCapacity. cbv zeta.
  split_tests; repeat split.
Qed.

Lemma Major_UpdateAntibodyCapacity_frame dt params inv (ab : t) :
  same_identity_and_counters ab
    (MalariaAntibodyPfEMP1Major.UpdateAntibodyCapacity dt params inv ab).
Proof.
  unfold MalariaAntibodyPfEMP1Major.UpdateAntibodyCapacity. cbv zeta.
  split_tests; repeat split.
Qed.

Lemma UpdateAntibodyConcentration_frame dt params (ab : t) :
  same_identity_and_counters ab
    (MalariaAntibody.UpdateAntibodyConcentration dt params ab).
Proof.
  unfold MalariaAntibody.UpdateAntibodyConcentration. cbv zeta.
  split_tests; repeat split.
Qed.

Lemma CSP_UpdateAntibodyConcentration_frame dt params (ab : t) :
  same_identity_and_counters ab
    (MalariaAntibodyCSP.UpdateAntibodyConcentration dt params ab).
Proof.
  unfold MalariaAntibodyCSP.UpdateAntibodyConcentration.
  destruct (m_antibody_concentration ab >? m_antibody_capacity ab).
  - apply set_concentration_frame.
  - apply UpdateAntibodyConcentration_frame.
Qed.

(** The assignments excluded from [JDeserialize] would restore the export. *)
Lemma excluded_body_restores (ab fresh : t) :
  Excluded.JDeserialize_body (MalariaAntibody.JSerialize [] ab) fresh = Some ab.
Proof. destruct ab as [k c n p e v]. destruct e; reflexivity. Qed.

(** The Boost path does restore what it saved. *)
Lemma Boost_round_trip (ab fresh : t) :
  exists items,
    Boost.serialize (Boost.Saving []) ab = Some (Boost.Saving items, ab)
    /\ Boost.serialize (Boost.Loading items) fresh = Some (Boost.Loading [], ab).
Proof.
  destruct ab as [k c n p e v].
  exists [Boost.ItFloat k; Boost.ItFloat c; Boost.ItInt64 n; Boost.ItBool p;
          Boost.ItEnum e; Boost.ItInt v].
  split; reflexivity.
Qed.

(** No override of [JDeserialize] has a statement to execute. *)
Lemma JDeserialize_identity (root : Json.IJsonObjectAdapter) (o : Object) :
  IMalariaAntibody.JDeserialize root o = o.
Proof. destruct o as [c ab]; destruct c; reflexivity. Qed.

(** The export does record the six members, whatever the class. *)
Lemma JSerialize_six_members (o : Object) :
  let root := IMalariaAntibody.JSerialize [] o in
  let ab := members o in
  Json.FindValue root "m_antibody_capacity" = Some (Json.Real (m_antibody_capacity ab))
  /\ Json.FindValue root "m_antibody_concentration"
     = Some (Json.Real (m_antibody_concentration ab))
  /\ Json.FindValue root "m_antigen_count" = Some (Json.Int64 (m_antigen_count ab))
  /\ Json.FindValue root "m_antigen_present" = Some (Json.Bool (m_antigen_present ab))
  /\ Json.FindValue root "m_antibody_type"
     = Some (Json.Int (MalariaAntibodyType.to_int (m_antibody_type ab)))
  /\ Json.FindValue root "m_antibody_variant" = Some (Json.Int (m_antibody_variant ab)).
Proof. destruct o as [c ab]; destruct c; repeat split. Qed.

Lemma int64_wrap_in_range (z : Z) : in_int64 z -> int64_wrap z = z.
Proof.
  unfold in_int64, int64_wrap, INT64_MIN, INT64_MAX. intros H.
  rewrite Z.mod_small by lia. lia.
Qed.
(** What each update stores, written with the tests the code performs. *)
Lemma Decay_flow dt params (ab : t) :
  let c := m_antibody_concentration ab in
  let k := m_antibody_capacity ab in
  m_antibody_concentration (MalariaAntibody.Decay dt params ab)
  = (if d_gt (f2d c) NON_TRIVIAL_ANTIBODY_THRESHOLD
     then c - c * TWENTY_DAY_DECAY_CONSTANT * dt
     else c)
  /\ m_antibody_capacity (MalariaAntibody.Decay dt params ab)
     = (if k >? memory_level params
        then k - (k - memory_level params) * hyperimmune_decay_rate params * dt
        else k).
Proof.
  unfold MalariaAntibody.Decay. cbv zeta. cbn.
  split; split_tests; reflexivity.
Qed.

Lemma UpdateAntibodyCapacity_flow dt params inv (ab : t) :
  let k := m_antibody_capacity ab in
  let k1 := k + MSP1_antibody_growthrate params * (f_lit 1 - k)
                * d2f (Sigmoid.basic_sigmoid
                         (f2d (antibody_stimulation_c50 params))
                         (f2d (i2f (m_antigen_count ab) * inv))) in
  let k2 := if d_gt (f2d k1) B_CELL_PROLIFERATION_THRESHOLD
            then k1 + (f_lit 1 - k1) * B_CELL_PROLIFERATION_CONSTANT * dt
            else k1 in
  m_antibody_capacity (MalariaAntibody.UpdateAntibodyCapacity dt params inv ab)
  = (if d_gt (f2d k2) (d_lit 1) then d2f (d_lit 1) else k2)
  /\ m_antibody_concentration (MalariaAntibody.UpdateAntibodyCapacity dt params inv ab)
     = m_antibody_concentration ab.
Proof.
  unfold MalariaAntibody.UpdateAntibodyCapacity. cbv zeta. cbn.
  split; split_tests; reflexivity.
Qed.

Lemma UpdateAntibodyCapacity_rate_flow dt growth_rate (ab : t) :
  let k := m_antibody_capacity ab in
  let k1 := k + growth_rate * dt * (i2f 1 - k) in
  m_antibody_capacity (MalariaAntibody.UpdateAntibodyCapacity_rate dt growth_rate ab)
  = (if d_gt (f2d k1) (d_lit 1) then d2f (d_lit 1) else k1)
  /\ m_antibody_concentration
       (MalariaAntibody.UpdateAntibodyCapacity_rate dt growth_rate ab)
     = m_antibody_concentration ab.
Proof.
  unfold MalariaAntibody.UpdateAntibodyCapacity_rate. cbv zeta. cbn.
  split; split_tests; reflexivity.
Qed.

Lemma Minor_UpdateAntibodyCapacity_flow dt params inv (ab : t) :
  let k := m_antibody_capacity ab in
  let min_stimulation :=
    antibody_stimulation_c50 params * minimum_adapted_response params in
  let growth_rate :=
    antibody_capacity_growthrate params * non_specific_growth params in
  let k1 := if d_le (f2d k) B_CELL_PROLIFERATION_THRESHOLD
            then k + growth_rate * dt * (f_lit 1 - k)
                     * d2f (Sigmoid.basic_sigmoid
                              (f2d (antibody_stimulation_c50 params))
                              (f2d (i2f (m_antigen_count ab) * inv + min_stimulation)))
            else k + (f_lit 1 - k) * B_CELL_PROLIFERATION_CONSTANT * dt in
  m_antibody_capacity
    (MalariaAntibodyPfEMP1Minor.UpdateAntibodyCapacity dt params inv ab)
  = (if d_gt (f2d k1) (d_lit 1) then d2f (d_lit 1) else k1)
  /\ m_antibody_concentration
       (MalariaAntibodyPfEMP1Minor.UpdateAntibodyCapacity dt params inv ab)
     = m_antibody_concentration ab.
Proof.
  unfold MalariaAntibodyPfEMP1Minor.UpdateAntibodyCapacity. cbv zeta. cbn.
  split; split_tests; reflexivity.
Qed.

Lemma Major_UpdateAntibodyCapacity_flow dt params inv (ab : t) :
  let k := m_antibody_capacity ab in
  let min_stimulation :=
    antibody_stimulation_c50 params * minimum_adapted_response params in
  let k1 := k + antibody_capacity_growthrate params * dt * (f_lit 1 - k)
                * d2f (Sigmoid.basic_sigmoid
                         (f2d (antibody_stimulation_c50 params))
                         (f2d (i2f (m_antigen_count ab) * inv + min_stimulation))) in
  m_antibody_capacity
    (MalariaAntibodyPfEMP1Major.UpdateAntibodyCapacity dt params inv ab)
  = (if d_le (f2d k) B_CELL_PROLIFERATION_THRESHOLD
     then if d_gt (f2d k1) (d_lit 1) then d2f (d_lit 1) else k1
     else k + (f_lit 1 - k) * B_CELL_PROLIFERATION_CONSTANT * dt)
  /\ m_antibody_concentration
       (MalariaAntibodyPfEMP1Major.UpdateAntibodyCapacity dt params inv ab)
     = m_antibody_concentration ab.
Proof.
  unfold MalariaAntibodyPfEMP1Major.UpdateAntibodyCapacity. cbv zeta. cbn.
  split; split_tests; reflexivity.
Qed.

Lemma UpdateAntibodyConcentration_flow dt params (ab : t) :
  let c := m_antibody_concentration ab in
  let k := m_antibody_capacity ab in
  let c1 := if d_gt (f2d k) ANTIBODY_RELEASE_THRESHOLD
            then c + (k - c) * i2f ANTIBODY_RELEASE_FACTOR * dt
            else c in
  m_antibody_concentration (MalariaAntibody.UpdateAntibodyConcentration dt params ab)
  = (if c1 >? k then k else c1)
  /\ m_antibody_capacity (MalariaAntibody.UpdateAntibodyConcentration dt params ab)
     = k.
Proof.
  unfold MalariaAntibody.UpdateAntibodyConcentration. cbv zeta. cbn.
  split; split_tests; reflexivity.
Qed.

(** The two CSP overrides share one rule. *)
Lemma CSP_flow dt params (ab : t) :
  let c := m_antibody_concentration ab in
  let k := m_antibody_capacity ab in
  MalariaAntibodyCSP.Decay dt params ab
  = (if c >? k
     then set_concentration ab (c - c * dt / antibody_csp_decay_days params)
     else MalariaAntibody.Decay dt params ab)
  /\ MalariaAntibodyCSP.UpdateAntibodyConcentration dt params ab
     = (if c >? k
        then set_concentration ab (c - c * dt / antibody_csp_decay_days params)
        else MalariaAntibody.UpdateAntibodyConcentration dt params ab).
Proof. split; reflexivity. Qed.

(** After the release update the test [concentration > capacity] is false, in
    every arithmetic whose [>] is irreflexive. *)
Lemma UpdateAntibodyConcentration_not_above dt params (ab : t) :
  (forall x : float, (x >? x) = false) ->
  let ab' := MalariaAntibody.UpdateAntibodyConcentration dt params ab in
  (m_antibody_concentration ab' >? m_antibody_capacity ab') = false.
Proof.
  intros irrefl. unfold MalariaAntibody.UpdateAntibodyConcentration.
  cbv zeta. cbn.
  destruct (d_gt (f2d (m_antibody_capacity ab)) ANTIBODY_RELEASE_THRESHOLD); cbn.
  - match goal with
    | |- context [if ?a >? ?b then _ else _] => destruct (a >? b) eqn:E
    end; cbn.
    + apply irrefl.
    + exact E.
  - destruct (m_antibody_concentration ab >? m_antibody_capacity ab) eqn:E; cbn.
    + apply irrefl.
    + exact E.
Qed.

End ControlFlow.

(** ** The release update on machine floats *)

Lemma SFltb_irrefl (x : spec_float) : SFltb x x = false.
Proof.
  unfold SFltb, SFcompare.
  destruct x as [s | s | | s m e]; try (destruct s; reflexivity); try reflexivity.
  rewrite Z.compare_refl.
  assert (R : Pos.compare_cont Eq m m = Eq) by apply Pos.compare_cont_refl.
  rewrite R. destruct s; reflexivity.
Qed.

(** X18: in binary32, whatever the state before, infinities and NaN included,
    the release update of a lineage that is not CSP ends with [concentration >
    capacity] false. *)
Lemma binary32_concentration_not_above (dt : @float ieee)
      (params : SusceptibilityMalariaConfig (FA := ieee)) (o : Object (FA := ieee)) :
  class_of o <> Class_MalariaAntibodyCSP ->
  let o' := IMalariaAntibody.UpdateAntibodyConcentration dt params o in
  @f_gt ieee (MalariaAntibody.m_antibody_concentration (members o'))
    (MalariaAntibody.m_antibody_capacity (members o')) = false.
Proof.
  intros H. cbv zeta. destruct o as [c ab]. simpl in H.
  destruct c; try congruence; simpl;
    apply (@UpdateAntibodyConcentration_not_above ieee);
    intros x; apply SFltb_irrefl.
Qed.

(** ** The proliferation threshold on machine floats *)

(** The [float] nearest to 0.4 lies above the [double] constant 0.4 it is
    compared with, so a PfEMP1-Minor lineage created with capacity 0.4f is in
    the rapid regime: with [dt = 1] its capacity becomes 0.598. *)
Lemma binary32_threshold_float_is_above :
  @d_le ieee (@f2d ieee (Binary32.lit 0.4)) B_CELL_PROLIFERATION_THRESHOLD = false
  /\ @d_gt ieee (@f2d ieee (Binary32.lit 0.4)) B_CELL_PROLIFERATION_THRESHOLD = true
  /\ Binary32.between 0.5979 0.5981
       (MalariaAntibody.m_antibody_capacity
          (MalariaAntibodyPfEMP1Minor.UpdateAntibodyCapacity (Binary32.lit 1)
             Binary32.params (Binary32.lit 1)
             (Binary32.lineage 0.4 0 0 false MalariaAntibodyType.PfEMP1_minor 0)))
     = true.
Proof. repeat split; vm_compute; reflexivity. Qed.

(** ** Machine floats: order, signs and promotion *)

Section SpecFloatFacts.
Local Unset Implicit Arguments.
Local Open Scope Z_scope.

Lemma SFcompare_antisym (x y : spec_float) :
  SFcompare y x = option_map CompOpp (SFcompare x y).
Proof.
  destruct x as [s1 | s1 | | s1 m1 e1], y as [s2 | s2 | | s2 m2 e2];
    try destruct s1; try destruct s2; try reflexivity;
    unfold SFcompare; simpl; rewrite (Z.compare_antisym e1 e2);
    destruct (Z.compare e1 e2); simpl; try reflexivity;
    rewrite (Pos.compare_cont_antisym m1 m2 Eq); reflexivity.
Qed.

Lemma SFleb_of_not_ltb (x y : spec_float) :
  SF_is_nan x = false -> SF_is_nan y = false ->
  SFltb y x = false -> SFleb x y = true.
Proof.
  intros Hx Hy. unfold SFltb, SFleb. rewrite (SFcompare_antisym x y).
  destruct (SFcompare x y) as [[ | | ]|] eqn:E; simpl; try reflexivity; try discriminate.
  destruct x, y; simpl in *; try discriminate.
Qed.

Section Signs.
Variables prec emax : Z.

Lemma binary_round_aux_sign s m e l :
  SF_has_sign s (binary_round_aux prec emax s m e l) = true.
Proof.
  unfold binary_round_aux.
  destruct (shr_fexp prec emax m e l) as [mrs e'].
  destruct (shr_fexp prec emax _ e' loc_Exact) as [mrs' e''].
  destruct (shr_m mrs'); simpl; try apply eqb_reflx; try reflexivity.
  destruct (Z.leb e'' (emax - prec)); simpl; apply eqb_reflx.
Qed.

Lemma binary_round_sign s m e :
  SF_has_sign s (binary_round prec emax s m e) = true.
Proof.
  unfold binary_round.
  destruct (shl_align m e _) as [mz ez]. apply binary_round_aux_sign.
Qed.

Lemma binary_normalize_nonneg z e :
  (0 <= z)%Z -> SF_has_sign false (binary_normalize prec emax z e false) = true.
Proof.
  intros H. destruct z as [|p|p]; simpl; try reflexivity; try lia.
  apply binary_round_sign.
Qed.

Lemma binary_normalize_nonpos z e :
  (z <= 0)%Z -> SF_not_positive (binary_normalize prec emax z e false) = true.
Proof.
  intros H. destruct z as [|p|p]; simpl; try reflexivity; try lia.
  pose proof (binary_round_sign true p e) as S.
  destruct (binary_round prec emax true p e) as [s|s| |s m' e']; simpl in *;
    try reflexivity; destruct s; simpl in *; congruence.
Qed.

Lemma SF_has_sign_eq s x :
  SF_has_sign s x = true ->
  x = S754_nan \/ x = S754_zero s \/ x = S754_infinity s
  \/ exists m e, x = S754_finite s m e.
Proof.
  destruct x as [s'|s'| |s' m e]; simpl; intros H;
    try (apply eqb_prop in H; subst); auto.
  right. right. right. exists m, e. reflexivity.
Qed.

Lemma SFmul_sign sx sy x y :
  SF_has_sign sx x = true -> SF_has_sign sy y = true ->
  SF_has_sign (xorb sx sy) (SFmul prec emax x y) = true.
Proof.
  intros Hx Hy.
  apply SF_has_sign_eq in Hx. apply SF_has_sign_eq in Hy.
  destruct Hx as [-> | [-> | [-> | (mx & ex & ->)]]];
    destruct Hy as [-> | [-> | [-> | (my & ey & ->)]]];
    simpl; try reflexivity; try apply eqb_reflx.
  apply binary_round_aux_sign.
Qed.


Lemma SF_not_negative_of_sign (x : spec_float) :
  SF_has_sign false x = true -> SF_not_negative x = true.
Proof. destruct x as [s|s| |s m e]; try reflexivity; destruct s; simpl; congruence. Qed.

Lemma SF_not_positive_of_sign (x : spec_float) :
  SF_has_sign true x = true -> SF_not_positive x = true.
Proof. destruct x as [s|s| |s m e]; try reflexivity; destruct s; simpl; congruence. Qed.

Lemma SFmul_not_negative (x y : spec_float) :
  SF_not_negative x = true -> SF_not_negative y = true ->
  SF_not_negative (SFmul prec emax x y) = true.
Proof.
  destruct x as [sx|sx| |sx mx ex]; try destruct sx; try discriminate;
    destruct y as [sy|sy| |sy my ey]; try destruct sy; try discriminate;
    intros _ _; try reflexivity.
  apply SF_not_negative_of_sign. apply binary_round_aux_sign.
Qed.




Lemma SF_not_positive_mul (x y : spec_float) :
  SF_not_positive x = true -> SF_not_negative y = true ->
  SF_not_positive (SFmul prec emax x y) = true.
Proof.
  destruct x as [sx|sx| |sx mx ex]; try destruct sx; try discriminate;
    destruct y as [sy|sy| |sy my ey]; try destruct sy; try discriminate;
    intros _ _; try reflexivity.
  apply SF_not_positive_of_sign. apply binary_round_aux_sign.
Qed.
End Signs.

Lemma SFltb_zero_of_not_positive (x : spec_float) :
  SF_not_positive x = true -> SFltb (S754_zero false) x = false.
Proof. destruct x as [s|s| |s m e]; try destruct s; simpl; try reflexivity; discriminate. Qed.

Lemma digits2_pos_upper (m : positive) : Zpos m < 2 ^ Zpos (digits2_pos m).
Proof.
  induction m as [p IH | p IH | ]; simpl digits2_pos.
  - rewrite Pos2Z.inj_succ, Z.pow_succ_r by lia. lia.
  - rewrite Pos2Z.inj_succ, Z.pow_succ_r by lia. lia.
  - reflexivity.
Qed.

Lemma digits2_pos_lower (m : positive) : 2 ^ (Zpos (digits2_pos m) - 1) <= Zpos m.
Proof.
  induction m as [p IH | p IH | ]; simpl digits2_pos.
  - rewrite Pos2Z.inj_succ.
    replace (Z.succ (Zpos (digits2_pos p)) - 1) with (Z.succ (Zpos (digits2_pos p) - 1)) by lia.
    rewrite Z.pow_succ_r by lia. lia.
  - rewrite Pos2Z.inj_succ.
    replace (Z.succ (Zpos (digits2_pos p)) - 1) with (Z.succ (Zpos (digits2_pos p) - 1)) by lia.
    rewrite Z.pow_succ_r by lia. lia.
  - simpl. lia.
Qed.

Lemma Pos_iter_xO_value (m d : positive) :
  Zpos (Pos.iter xO m d) = Zpos m * 2 ^ Zpos d.
Proof.
  induction d as [|d IH] using Pos.peano_ind.
  - simpl. lia.
  - rewrite Pos.iter_succ, Pos2Z.inj_succ, Z.pow_succ_r by lia.
    rewrite Pos2Z.inj_xO, IH. lia.
Qed.

Lemma digits2_pos_iter_xO (m d : positive) :
  digits2_pos (Pos.iter xO m d) = (digits2_pos m + d)%positive.
Proof.
  induction d as [|d IH] using Pos.peano_ind.
  - simpl. lia.
  - rewrite Pos.iter_succ. simpl digits2_pos. rewrite IH. lia.
Qed.

Lemma shl_align_value (mx : positive) (ex ez : Z) :
  ez <= ex -> Zpos (fst (shl_align mx ex ez)) = Zpos mx * 2 ^ (ex - ez).
Proof.
  intros H. unfold shl_align.
  destruct (ez - ex) as [|d|d] eqn:E; simpl fst.
  - replace (ex - ez) with 0 by lia. simpl. lia.
  - lia.
  - rewrite Pos_iter_xO_value. f_equal. f_equal. lia.
Qed.

(** What [bounded] says of a binary32 mantissa and exponent. *)
Lemma bounded_binary32 (m : positive) (e : Z) :
  bounded 24 128 m e = true ->
  Zpos (digits2_pos m) <= 24 /\ -149 <= e <= 104
  /\ (e = -149 \/ Zpos (digits2_pos m) = 24).
Proof.
  unfold bounded, canonical_mantissa, fexp, emin. intros H.
  apply andb_true_iff in H. destruct H as [H1 H2].
  apply Z.eqb_eq in H1. apply Z.leb_le in H2. lia.
Qed.

Lemma SFleb_one_inv (m : positive) (e : Z) :
  SFleb (S754_finite false m e) Binary32.one = true ->
  e < -23 \/ (e = -23 /\ Zpos m <= 8388608).
Proof.
  unfold SFleb, SFcompare, Binary32.one.
  destruct (e ?= -23) eqn:C.
  - apply Z.compare_eq in C. intros H. right. split; [exact C|].
    change (Pos.compare_cont Eq m 8388608) with (Pos.compare m 8388608) in H.
    assert (P : (m <= 8388608)%positive).
    { apply Pos.compare_le_iff. intros G. rewrite G in H. discriminate H. }
    lia.
  - intros _. left. apply Z.compare_lt_iff in C. exact C.
  - discriminate.
Qed.

Lemma one_SFleb_inv (m : positive) (e : Z) :
  SFleb Binary32.one (S754_finite false m e) = true ->
  -23 < e \/ (e = -23 /\ 8388608 <= Zpos m).
Proof.
  unfold SFleb, SFcompare, Binary32.one.
  destruct (-23 ?= e) eqn:C.
  - apply Z.compare_eq in C. intros H. right. split; [lia|].
    change (Pos.compare_cont Eq 8388608 m) with (Pos.compare 8388608 m) in H.
    assert (P : (8388608 <= m)%positive).
    { apply Pos.compare_le_iff. intros G. rewrite G in H. discriminate H. }
    lia.
  - intros _. left. apply Z.compare_lt_iff in C. exact C.
  - discriminate.
Qed.

(** [1.0f - k] is not negative when [k] is a binary32 value in [0, 1]. *)
Lemma SFsub_one_sign_clear (k : spec_float) :
  valid_binary 24 128 k = true ->
  SF_has_sign false k = true ->
  SFleb k Binary32.one = true ->
  SF_has_sign false (SFsub 24 128 Binary32.one k) = true.
Proof.
  intros V S L.
  destruct k as [s|s| |s m e]; simpl in S;
    try (apply eqb_prop in S; subst s); try discriminate L; try reflexivity.
  simpl in V. apply bounded_binary32 in V. destruct V as (D & R & N).
  pose proof (digits2_pos_upper m) as U.
  assert (M : Zpos m < 2 ^ 24).
  { eapply Z.lt_le_trans; [exact U|]. apply Z.pow_le_mono_r; lia. }
  apply SFleb_one_inv in L.
  unfold SFsub, Binary32.one. cbv zeta.
  apply binary_normalize_nonneg. unfold cond_Zopp.
  destruct L as [L | [L1 L2]].
  - rewrite Z.min_r by lia.
    rewrite (shl_align_value 8388608 (-23) e) by lia.
    rewrite (shl_align_value m e e) by lia.
    replace (e - e) with 0 by lia. rewrite Z.pow_0_r, Z.mul_1_r.
    assert (P : 2 ^ 1 <= 2 ^ (-23 - e)) by (apply Z.pow_le_mono_r; lia).
    change (2 ^ 1) with 2 in P. change (2 ^ 24) with 16777216 in M. nia.
  - subst e. rewrite Z.min_id.
    rewrite (shl_align_value 8388608 (-23) (-23)) by lia.
    rewrite (shl_align_value m (-23) (-23)) by lia.
    change (-23 - -23) with 0. rewrite Z.pow_0_r. lia.
Qed.

(** [1.0f - k] is not positive when [k] is a binary32 value at or above 1. *)
Lemma SFsub_one_not_positive (k : spec_float) :
  valid_binary 24 128 k = true ->
  SFleb Binary32.one k = true ->
  SF_not_positive (SFsub 24 128 Binary32.one k) = true.
Proof.
  intros V L.
  destruct k as [s|s| |s m e]; try discriminate L.
  - destruct s; [discriminate L | reflexivity].
  - destruct s; [discriminate L|].
    simpl in V. apply bounded_binary32 in V. destruct V as (D & R & N).
    pose proof (digits2_pos_lower m) as Lo.
    apply one_SFleb_inv in L.
    unfold SFsub, Binary32.one. cbv zeta.
    apply binary_normalize_nonpos. unfold cond_Zopp.
    rewrite Z.min_l by lia.
    rewrite (shl_align_value 8388608 (-23) (-23)) by lia.
    rewrite (shl_align_value m e (-23)) by lia.
    change (-23 - -23) with 0. rewrite Z.pow_0_r.
    destruct L as [L | [L1 L2]].
    + destruct N as [N | N]; [lia|].
      rewrite N in Lo. change (2 ^ (24 - 1)) with 8388608 in Lo.
      assert (P : 2 ^ 0 <= 2 ^ (e - -23)) by (apply Z.pow_le_mono_r; lia).
      change (2 ^ 0) with 1 in P. nia.
    + subst e. change (-23 - -23) with 0. rewrite Z.pow_0_r. lia.
Qed.

(** The promotion of a binary32 value to binary64 is exact: the mantissa is
    shifted to 53 bits. *)
Lemma SF_convert_binary32 (s : bool) (m : positive) (e : Z) :
  bounded 24 128 m e = true ->
  exists p : positive,
    Zpos p = 53 - Zpos (digits2_pos m)
    /\ SF_convert 53 1024 (S754_finite s m e)
       = S754_finite s (Pos.iter xO m p) (e - Zpos p).
Proof.
  intros V. apply bounded_binary32 in V. destruct V as (D & R & N).
  pose proof (Pos2Z.is_pos (digits2_pos m)) as Dpos.
  destruct (53 - Zpos (digits2_pos m)) as [|p|p] eqn:P; try lia.
  exists p. split; [reflexivity|].
  unfold SF_convert, binary_round.
  assert (F : fexp 53 1024 (Zpos (digits2_pos m) + e) = e - Zpos p).
  { unfold fexp, emin. lia. }
  rewrite F. unfold shl_align.
  replace (e - Zpos p - e) with (Zneg p) by lia.
  unfold binary_round_aux, shr_fexp.
  assert (G : forall mz : positive,
            digits2_pos mz = (digits2_pos m + p)%positive ->
            fexp 53 1024 (Zdigits2 (Zpos mz) + (e - Zpos p)) - (e - Zpos p) = 0).
  { intros mz E. unfold Zdigits2, fexp, emin. rewrite E. lia. }
  rewrite (G _ (digits2_pos_iter_xO m p)). simpl shr. cbv iota beta.
  simpl round_nearest_even.
  rewrite (G _ (digits2_pos_iter_xO m p)). simpl.
  assert (B : (e - Zpos p <=? 971) = true) by (apply Z.leb_le; lia).
  rewrite B. reflexivity.
Qed.

(** No binary32 value promotes to the binary64 constant 0.4: on a [float],
    the tests [<= 0.4] and [< 0.4] are the same test. *)
Lemma binary32_never_at_threshold (k : spec_float) :
  valid_binary 24 128 k = true ->
  SFleb (SF_convert 53 1024 k) Binary32.threshold = SFltb (SF_convert 53 1024 k) Binary32.threshold.
Proof.
  intros V. destruct k as [s|s| |s m e].
  1-2: destruct s; reflexivity.
  1: reflexivity.
  simpl in V.
  destruct (SF_convert_binary32 s m e V) as (p & P & E).
  rewrite E. clear E.
  apply bounded_binary32 in V. destruct V as (D & R & N).
  unfold SFleb, SFltb, SFcompare, Binary32.threshold.
  destruct s; [reflexivity|].
  destruct (e - Zpos p ?= -54) eqn:C; try reflexivity.
  remember (Pos.compare_cont Eq (Pos.iter xO m p) 7205759403792794) as c eqn:Q.
  destruct c; try reflexivity.
  exfalso. symmetry in Q.
  rewrite Pos.compare_cont_spec in Q.
  destruct (Pos.compare_spec (Pos.iter xO m p) 7205759403792794) as [Q'|Q'|Q']; try discriminate Q.
  clear Q. rename Q' into Q.
  assert (E : Zpos (Pos.iter xO m p) = 7205759403792794) by (rewrite Q; reflexivity).
  rewrite Pos_iter_xO_value in E.
  replace (Zpos p) with (2 + (Zpos p - 2)) in E by lia.
  rewrite Z.pow_add_r in E by lia.
  change (2 ^ 2) with 4 in E.
  set (x := 2 ^ (Zpos p - 2)) in E.
  lia.
Qed.

Lemma SFmul_zero_r prec emax (x : spec_float) (s : bool) :
  SF_is_zero (SFmul prec emax x (S754_zero s))
  || SF_is_nan (SFmul prec emax x (S754_zero s)) = true.
Proof. destruct x as [s'|s'| |s' m e]; reflexivity. Qed.

Lemma SFmul_zero_or_nan_l prec emax (x y : spec_float) :
  SF_is_zero x || SF_is_nan x = true ->
  SF_is_zero (SFmul prec emax x y) || SF_is_nan (SFmul prec emax x y) = true.
Proof.
  destruct x as [s|s| |s m e]; try discriminate; intros _;
    destruct y as [s'|s'| |s' m' e']; reflexivity.
Qed.

Lemma SFmul_finite_zero_r prec emax (x : spec_float) (s : bool) :
  SF_is_finite x = true -> SF_is_zero (SFmul prec emax x (S754_zero s)) = true.
Proof. destruct x as [s'|s'| |s' m e]; try discriminate; reflexivity. Qed.

Lemma SFmul_zero_finite_l prec emax (x y : spec_float) :
  SF_is_zero x = true -> SF_is_finite y = true ->
  SF_is_zero (SFmul prec emax x y) = true.
Proof.
  destruct x as [s|s| |s m e]; try discriminate; intros _;
    destruct y as [s'|s'| |s' m' e']; try discriminate; reflexivity.
Qed.

Lemma SFadd_finite_zero_r prec emax s m e (z : spec_float) :
  SF_is_zero z = true -> SFadd prec emax (S754_finite s m e) z = S754_finite s m e.
Proof. destruct z; try discriminate; reflexivity. Qed.


Lemma SF_not_negative_of_le (x : spec_float) :
  SFleb (S754_zero false) x = true -> SF_not_negative x = true.
Proof.
  destruct x as [s|s| |s m e]; try destruct s; cbn; intros H;
    try reflexivity; discriminate H.
Qed.

Lemma SFltb_zero_of_not_negative (x : spec_float) :
  SF_not_negative x = true -> SFltb x (S754_zero false) = false.
Proof.
  destruct x as [s|s| |s m e]; try destruct s; cbn; intros H;
    try reflexivity; discriminate H.
Qed.

Lemma SFsub_one_not_negative (k : spec_float) :
  valid_binary 24 128 k = true ->
  SF_not_negative k = true ->
  SFleb k Binary32.one = true ->
  SF_not_negative (SFsub 24 128 Binary32.one k) = true.
Proof.
  intros V S L.
  destruct k as [s|s| |s m e].
  - reflexivity.
  - destruct s; discriminate.
  - discriminate L.
  - destruct s; [discriminate S|].
    apply SF_not_negative_of_sign.
    apply SFsub_one_sign_clear; [exact V | reflexivity | exact L].
Qed.
End SpecFloatFacts.

(** In every arithmetic, the capacity a clamped update stores is not above
    1.0 as soon as the constant 1.0 converted to [float] is not. *)
Lemma clamped_capacity_not_above (FA : FloatArith) (k : float) :
  d_gt (f2d (d2f (d_lit 1))) (d_lit 1) = false ->
  d_gt (f2d (if d_gt (f2d k) (d_lit 1) then d2f (d_lit 1) else k)) (d_lit 1) = false.
Proof. intros H. destruct (d_gt (f2d k) (d_lit 1)) eqn:E; assumption. Qed.

Lemma binary32_one_round_trips :
  @d_gt ieee (@f2d ieee (@d2f ieee (@d_lit ieee 1))) (@d_lit ieee 1) = false.
Proof. vm_compute. reflexivity. Qed.

(** ** The operations of the program on binary32 *)

Section Binary32Facts.
Local Unset Implicit Arguments.
Local Existing Instance ieee.
Local Open Scope flt_scope.

(** On a [float] the tests [<= 0.4] and [< 0.4] are the same test. *)
Lemma binary32_le_threshold_is_lt (k : float) :
  Binary32.is_float k = true ->
  d_le (f2d k) B_CELL_PROLIFERATION_THRESHOLD
  = d_gt B_CELL_PROLIFERATION_THRESHOLD (f2d k).
Proof.
  intros V.
  change (SFleb (SF_convert 53 1024 k) Binary32.threshold
          = SFltb (SF_convert 53 1024 k) Binary32.threshold).
  apply binary32_never_at_threshold. exact V.
Qed.

Lemma nonneg_not_negative (x : float) :
  Binary32.nonneg x = true -> SF_not_negative x = true.
Proof. apply SF_not_negative_of_le. Qed.

Lemma f_mul_not_negative (x y : float) :
  SF_not_negative x = true -> SF_not_negative y = true ->
  SF_not_negative (x * y) = true.
Proof. apply SFmul_not_negative. Qed.


Lemma i2f_not_negative (n : Z) : (0 <= n)%Z -> SF_not_negative (i2f n) = true.
Proof.
  intros H. apply SF_not_negative_of_sign. apply binary_normalize_nonneg. exact H.
Qed.


Lemma in_unit_interval_inv (k : float) :
  Binary32.in_unit_interval k = true ->
  Binary32.is_float k = true /\ SF_not_negative k = true
  /\ SFleb k Binary32.one = true.
Proof.
  unfold Binary32.in_unit_interval. intros H.
  apply andb_true_iff in H. destruct H as [H L].
  apply andb_true_iff in H. destruct H as [V S].
  split; [exact V|]. split; [apply nonneg_not_negative; exact S | exact L].
Qed.

Lemma one_minus_not_negative (k : float) :
  Binary32.in_unit_interval k = true -> SF_not_negative (f_lit 1 - k) = true.
Proof.
  intros H. apply in_unit_interval_inv in H. destruct H as (V & S & L).
  change (SF_not_negative (SFsub 24 128 Binary32.one k) = true).
  apply SFsub_one_not_negative; assumption.
Qed.


Lemma not_below_zero (x : float) :
  SF_not_negative x = true -> (f_lit 0 >? x) = false.
Proof. apply SFltb_zero_of_not_negative. Qed.







Lemma one_plus_zero (z : float) :
  SF_is_zero z = true -> Binary32.one + z = Binary32.one.
Proof. apply SFadd_finite_zero_r. Qed.

Lemma rapid_from_one (dt : float) :
  SF_is_finite dt = true ->
  Binary32.one + (f_lit 1 - Binary32.one) * B_CELL_PROLIFERATION_CONSTANT * dt
  = Binary32.one.
Proof.
  intros H. apply one_plus_zero.
  change ((f_lit 1 - Binary32.one) * B_CELL_PROLIFERATION_CONSTANT)
    with (S754_zero false).
  apply SFmul_zero_finite_l; [reflexivity | exact H].
Qed.
End Binary32Facts.

(** ** Serialization *)

(** C1 (export with [JSerialize], import with [JDeserialize] into a fresh
    lineage of the same class, all six fields restored) evaluated on the code:
    the export of the MSP lineage [msp_busy] holds its six members, and the
    import into the lineage made by [MalariaAntibodyMSP::CreateAntibody(0, 0)]
    returns that fresh lineage as it was.  Capacity, concentration, antigen
    count, presence flag and variant of the original are all lost; the same
    happens for every class and every lineage, since no [JDeserialize] has a
    statement left to execute.  The assignments excluded by [#if 0] would
    have restored the original. *)
Theorem JDeserialize_restores_nothing :
  let original := Examples.msp_busy in
  let fresh := MalariaAntibodyMSP.CreateAntibody (FA := exact) 0 0 Examples.raw in
  let restored := json_round_trip original fresh in
  Json.FindValue (IMalariaAntibody.JSerialize [] original) "m_antigen_count"
    = Some (Json.Int64 7)
  /\ restored = fresh
  /\ MalariaAntibody.m_antigen_count (members original) = 7%Z
  /\ MalariaAntibody.m_antigen_count (members restored) = 0%Z
  /\ MalariaAntibody.m_antigen_present (members original) = true
  /\ MalariaAntibody.m_antigen_present (members restored) = false
  /\ MalariaAntibody.m_antibody_variant (members original) = 3%Z
  /\ MalariaAntibody.m_antibody_variant (members restored) = 0%Z
  /\ MalariaAntibody.m_antibody_capacity (members original) = 0.5
  /\ MalariaAntibody.m_antibody_capacity (members restored) = 0
  /\ MalariaAntibody.m_antibody_concentration (members original) = 0.25
  /\ MalariaAntibody.m_antibody_concentration (members restored) = 0
  /\ ~ same_six_fields (members original) (members restored)
  /\ (forall (FA : FloatArith) (o f : Object), json_round_trip o f = f)
  /\ Excluded.JDeserialize_body (IMalariaAntibody.JSerialize [] original)
       (members fresh)
     = Some (members original).
Proof.
  cbv zeta. repeat split; try reflexivity.
  - unfold same_six_fields. intros (_ & _ & H & _). discriminate H.
  - intros FA o f. unfold json_round_trip. apply JDeserialize_identity.
Qed.

(** ** Antigen bookkeeping *)

(** C8 as stated fails on the 64-bit counter: a lineage whose count is
    [INT64_MAX] and an increment of 1 do not end with the count increased by
    exactly 1, a value no [int64_t] holds. *)
Lemma IncreaseAntigenCount_overflow_counterexample :
  let ab := Examples.lineage 0.5 0.25 INT64_MAX true MalariaAntibodyType.MSP1 3 in
  let o := Examples.object Class_MalariaAntibodyMSP ab in
  in_int64 (MalariaAntibody.m_antigen_count ab)
  /\ in_int64 1
  /\ (1 > 0)%Z
  /\ MalariaAntibody.m_antigen_count (members (IMalariaAntibody.IncreaseAntigenCount 1 o))
     <> (MalariaAntibody.m_antigen_count ab + 1)%Z
  /\ ~ in_int64 (MalariaAntibody.m_antigen_count ab + 1).
Proof.
  cbv zeta. split; [|split; [|split; [|split]]].
  - vm_compute. split; discriminate.
  - vm_compute. split; discriminate.
  - reflexivity.
  - vm_compute. discriminate.
  - vm_compute. intros [_ H]. apply H. reflexivity.
Qed.

(** C8, amended: for every lineage of every class, in every arithmetic, and
    every [int64_t] argument [n]: [IncreaseAntigenCount(n)] with [n > 0]
    always sets [antigen_present], leaves capacity, concentration, type and
    variant as they were, and stores [antigen_count + n] reduced to the range
    of [int64_t], which is [antigen_count + n] itself as long as this sum does
    not exceed [INT64_MAX]; with [n <= 0] the object is unchanged. *)
Theorem IncreaseAntigenCount_law (FA : FloatArith) (o : Object) (n : Z) :
  let count := MalariaAntibody.m_antigen_count (members o) in
  let o' := IMalariaAntibody.IncreaseAntigenCount n o in
  MalariaAntibody.m_antigen_count (members o')
  = (if (0 <? n)%Z then int64_wrap (count + n) else count)
  /\ MalariaAntibody.m_antigen_present (members o')
     = (if (0 <? n)%Z then true
        else MalariaAntibody.m_antigen_present (members o))
  /\ same_kinetics_and_identity (members o) (members o')
  /\ class_of o' = class_of o
  /\ ((0 < n)%Z -> in_int64 count -> (count + n <= INT64_MAX)%Z ->
      MalariaAntibody.m_antigen_count (members o') = (count + n)%Z)
  /\ ((n <= 0)%Z -> o' = o).
Proof.
  cbv zeta.
  unfold IMalariaAntibody.IncreaseAntigenCount, IMalariaAntibody.on_members,
    MalariaAntibody.IncreaseAntigenCount. simpl.
  rewrite Z.gtb_ltb.
  destruct (0 <? n)%Z eqn:E; simpl.
  - apply Z.ltb_lt in E. repeat split.
    + intros _ Hc Hn.
      apply int64_wrap_in_range. unfold in_int64, INT64_MIN, INT64_MAX in *. lia.
    + intros Hn. lia.
  - apply Z.ltb_ge in E. repeat split.
    + intros Hn. lia.
    + intros _. destruct o as [c ab]. destruct ab. reflexivity.
Qed.

Lemma IncreaseAntigenCount_law_witness :
  let o := Examples.msp_busy in
  ((0 < 5)%Z
   /\ in_int64 (MalariaAntibody.m_antigen_count (members o))
   /\ (MalariaAntibody.m_antigen_count (members o) + 5 <= INT64_MAX)%Z)
  /\ MalariaAntibody.m_antigen_count
       (members (IMalariaAntibody.IncreaseAntigenCount 5 o)) = 12%Z
  /\ MalariaAntibody.m_antigen_present
       (members (IMalariaAntibody.IncreaseAntigenCount 5 o)) = true
  /\ ((-5 <= 0)%Z /\ IMalariaAntibody.IncreaseAntigenCount (-5) o = o)
  /\ ((0 <= 0)%Z /\ IMalariaAntibody.IncreaseAntigenCount 0 o = o).
Proof.
  cbv zeta.
  assert (P : (0 < 5)%Z) by lia.
  assert (R : in_int64 (MalariaAntibody.m_antigen_count (members Examples.msp_busy)))
    by (unfold in_int64, INT64_MIN, INT64_MAX; simpl; lia).
  assert (B : (MalariaAntibody.m_antigen_count (members Examples.msp_busy) + 5
               <= INT64_MAX)%Z)
    by (unfold INT64_MAX; simpl; lia).
  assert (N5 : (-5 <= 0)%Z) by lia.
  assert (N0 : (0 <= 0)%Z) by lia.
  destruct (@IncreaseAntigenCount_law exact Examples.msp_busy 5)
    as (_ & F & _ & _ & C & _).
  split; [repeat split; assumption|].
  split; [exact (C P R B)|].
  split; [exact F|].
  split.
  - split; [exact N5|].
    apply (@IncreaseAntigenCount_law exact Examples.msp_busy (-5)). exact N5.
  - split; [exact N0|].
    apply (@IncreaseAntigenCount_law exact Examples.msp_busy 0). exact N0.
Defined.

(** ** Cytokine stimulation and frame conditions *)

(** C9: for every lineage of every class, in every arithmetic,
    [StimulateCytokines(dt, inv_uL_blood)] returns
    [(1 - concentration) * antigen_count * inv_uL_blood] and leaves the object,
    hence each of its six fields, as it was. *)
Theorem StimulateCytokines_pure (FA : FloatArith) (dt inv_uL_blood : float) (o : Object) :
  let r := IMalariaAntibody.StimulateCytokines dt inv_uL_blood o in
  fst r = ((i2f 1 - MalariaAntibody.m_antibody_concentration (members o))
           * i2f (MalariaAntibody.m_antigen_count (members o))
           * inv_uL_blood)%flt
  /\ snd r = o
  /\ same_six_fields (members o) (members (snd r)).
Proof.
  destruct o as [c ab]. cbv zeta. simpl. repeat split.
Qed.

(** C10: for every lineage of every class, in every arithmetic, [Decay], both
    overloads of [UpdateAntibodyCapacity] and [UpdateAntibodyConcentration]
    leave type, variant, antigen count and presence flag unchanged, and
    [ResetCounters] leaves capacity, concentration, type and variant
    unchanged while it sets the count to 0 and the flag to false. *)
Theorem kinetics_and_reset_frame (FA : FloatArith) (dt inv_uL_blood growth_rate : float)
        (params : SusceptibilityMalariaConfig) (o : Object) :
  same_identity_and_counters (members o)
    (members (IMalariaAntibody.Decay dt params o))
  /\ same_identity_and_counters (members o)
       (members (IMalariaAntibody.UpdateAntibodyCapacity dt params inv_uL_blood o))
  /\ same_identity_and_counters (members o)
       (members (IMalariaAntibody.UpdateAntibodyCapacity_rate dt growth_rate o))
  /\ same_identity_and_counters (members o)
       (members (IMalariaAntibody.UpdateAntibodyConcentration dt params o))
  /\ same_kinetics_and_identity (members o)
       (members (IMalariaAntibody.ResetCounters o))
  /\ MalariaAntibody.m_antigen_count (members (IMalariaAntibody.ResetCounters o)) = 0%Z
  /\ MalariaAntibody.m_antigen_present (members (IMalariaAntibody.ResetCounters o))
     = false.
Proof.
  destruct o as [c ab].
  repeat match goal with |- _ /\ _ => split end.
  - destruct c; simpl; auto using Decay_frame, CSP_Decay_frame.
  - destruct c; simpl;
      auto using UpdateAntibodyCapacity_frame, Minor_UpdateAntibodyCapacity_frame,
        Major_UpdateAntibodyCapacity_frame.
  - simpl. apply UpdateAntibodyCapacity_rate_frame.
  - destruct c; simpl;
      auto using UpdateAntibodyConcentration_frame,
        CSP_UpdateAntibodyConcentration_frame.
  - repeat split.
  - reflexivity.
  - reflexivity.
Qed.

(** ** The CSP overrides and the base growth law, in every arithmetic *)

Section EveryArithmetic.
Context {FA : FloatArith}.
Local Open Scope flt_scope.

(** C2, amended: for a CSP lineage in any state, in every arithmetic: when the
    test [concentration > capacity] holds, [Decay] and
    [UpdateAntibodyConcentration] both store
    [concentration - concentration * dt / antibody_csp_decay_days], computed
    in this order, and change nothing else: the capacity is kept and the new
    concentration is not clamped to it.  When the test fails both are the
    base-class operation. *)
Theorem CSP_boosted_law (dt : float) (params : SusceptibilityMalariaConfig)
        (ab : MalariaAntibody.t) :
  let o := {| class_of := Class_MalariaAntibodyCSP; members := ab |} in
  let c := MalariaAntibody.m_antibody_concentration ab in
  let k := MalariaAntibody.m_antibody_capacity ab in
  let d := antibody_csp_decay_days params in
  let decayed := members (IMalariaAntibody.Decay dt params o) in
  let updated := members (IMalariaAntibody.UpdateAntibodyConcentration dt params o) in
  ((c >? k) = true ->
   decayed = MalariaAntibody.set_concentration ab (c - c * dt / d)
   /\ updated = MalariaAntibody.set_concentration ab (c - c * dt / d)
   /\ MalariaAntibody.m_antibody_concentration decayed = c - c * dt / d
   /\ MalariaAntibody.m_antibody_concentration updated = c - c * dt / d
   /\ MalariaAntibody.m_antibody_capacity decayed = k
   /\ MalariaAntibody.m_antibody_capacity updated = k)
  /\ ((c >? k) = false ->
      decayed = MalariaAntibody.Decay dt params ab
      /\ updated = MalariaAntibody.UpdateAntibodyConcentration dt params ab).
Proof.
  cbv zeta. simpl.
  destruct (CSP_flow dt params ab) as [D U]. cbv zeta in D, U.
  rewrite D, U. split; intros E; rewrite E; repeat split.
Qed.

(** C6: in every arithmetic, for a lineage that uses the base (MSP) law,
    [UpdateAntibodyCapacity(dt, params, inv_uL_blood)] adds
    [growth_rate * (1 - capacity) * sigmoid(threshold, antigen_count *
    inv_uL_blood)] with [sigmoid(c50, x) = x / (x + c50)]; then, if the
    capacity so obtained exceeds 0.4, adds [(1 - capacity) * 0.33 * dt]; then
    clamps the capacity to at most 1.0.  On scenario A, in binary32, the
    stored capacity lies between 0.21333 and 0.21334, it is not above 0.4 and
    it is the sigmoid term alone. *)
Theorem base_UpdateAntibodyCapacity_law (dt inv_uL_blood : float)
        (params : SusceptibilityMalariaConfig) (o : Object) :
  (class_of o <> Class_MalariaAntibodyPfEMP1Minor ->
   class_of o <> Class_MalariaAntibodyPfEMP1Major ->
   let k := MalariaAntibody.m_antibody_capacity (members o) in
   let growth_rate := MSP1_antibody_growthrate params in
   let threshold := antibody_stimulation_c50 params in
   let sigmoid :=
     d2f (Sigmoid.basic_sigmoid (f2d threshold)
            (f2d (i2f (MalariaAntibody.m_antigen_count (members o))
                  * inv_uL_blood))) in
   let k1 := k + growth_rate * (f_lit 1 - k) * sigmoid in
   let k2 := if d_gt (f2d k1) B_CELL_PROLIFERATION_THRESHOLD
             then k1 + (f_lit 1 - k1) * B_CELL_PROLIFERATION_CONSTANT * dt
             else k1 in
   MalariaAntibody.m_antibody_capacity
     (members (IMalariaAntibody.UpdateAntibodyCapacity dt params inv_uL_blood o))
   = (if d_gt (f2d k2) (d_lit 1) then d2f (d_lit 1) else k2))
  /\ (forall c50 x : double, Sigmoid.basic_sigmoid c50 x = d_div x (d_add x c50))
  /\ (let grown :=
        MalariaAntibody.m_antibody_capacity
          (members (IMalariaAntibody.UpdateAntibodyCapacity (Binary32.lit 1)
                      Binary32.params (Binary32.lit 0.01)
                      (Binary32.object Class_MalariaAntibodyMSP
                         Binary32.scenario_A))) in
      Binary32.between 0.21333 0.21334 grown = true
      /\ @d_gt ieee (@f2d ieee grown) B_CELL_PROLIFERATION_THRESHOLD = false
      /\ grown
         = @f_add ieee (Binary32.lit 0.2)
             (@f_mul ieee
                (@f_mul ieee (Binary32.lit 0.05)
                   (@f_sub ieee (Binary32.lit 1) (Binary32.lit 0.2)))
                (@d2f ieee
                   (@Sigmoid.basic_sigmoid ieee (@f2d ieee (Binary32.lit 20))
                      (@f2d ieee
                         (@f_mul ieee (@i2f ieee 1000) (Binary32.lit 0.01))))))).
Proof.
  split; [|split].
  - intros Hm HM. cbv zeta. destruct o as [c ab]. simpl in Hm, HM.
    assert (E : members (IMalariaAntibody.UpdateAntibodyCapacity dt params inv_uL_blood
                           {| class_of := c; members := ab |})
                = MalariaAntibody.UpdateAntibodyCapacity dt params inv_uL_blood ab).
    { destruct c; try congruence; reflexivity. }
    rewrite E. apply (UpdateAntibodyCapacity_flow dt params inv_uL_blood ab).
  - reflexivity.
  - cbv zeta. repeat split; vm_compute; reflexivity.
Qed.
End EveryArithmetic.

Lemma CSP_boosted_law_witness :
  let boosted := Binary32.csp_boosted in
  let normal := Binary32.csp_normal in
  let dt := Binary32.lit 1 in
  let params := Binary32.params in
  (@f_gt ieee (MalariaAntibody.m_antibody_concentration boosted)
     (MalariaAntibody.m_antibody_capacity boosted) = true
   /\ Binary32.between 1.9777 1.9778
        (MalariaAntibody.m_antibody_concentration
           (members (IMalariaAntibody.UpdateAntibodyConcentration dt params
                       {| class_of := Class_MalariaAntibodyCSP;
                          members := boosted |})))
      = true
   /\ MalariaAntibody.m_antibody_capacity
        (members (IMalariaAntibody.UpdateAntibodyConcentration dt params
                    {| class_of := Class_MalariaAntibodyCSP; members := boosted |}))
      = Binary32.lit 0.5)
  /\ (@f_gt ieee (MalariaAntibody.m_antibody_concentration normal)
        (MalariaAntibody.m_antibody_capacity normal) = false
      /\ members (IMalariaAntibody.Decay dt params
                    {| class_of := Class_MalariaAntibodyCSP; members := normal |})
         = MalariaAntibody.Decay dt params normal).
Proof.
  cbv zeta.
  assert (B : @f_gt ieee (MalariaAntibody.m_antibody_concentration Binary32.csp_boosted)
                (MalariaAntibody.m_antibody_capacity Binary32.csp_boosted) = true)
    by (vm_compute; reflexivity).
  assert (N : @f_gt ieee (MalariaAntibody.m_antibody_concentration Binary32.csp_normal)
                (MalariaAntibody.m_antibody_capacity Binary32.csp_normal) = false)
    by (vm_compute; reflexivity).
  split.
  - destruct (proj1 (@CSP_boosted_law ieee (Binary32.lit 1) Binary32.params
                       Binary32.csp_boosted) B) as (_ & _ & _ & H1 & _ & H2).
    split; [exact B|]. split; [|exact H2].
    rewrite H1. vm_compute. reflexivity.
  - split; [exact N|].
    exact (proj1 (proj2 (@CSP_boosted_law ieee (Binary32.lit 1) Binary32.params
                           Binary32.csp_normal) N)).
Defined.

(** C2 as stated fails on the machine: for the boosted CSP lineage with
    concentration 1e30 over capacity 0.5, [dt = 1e10] and
    [antibody_csp_decay_days = 1e10], all finite, the product
    [concentration * dt] overflows, and [Decay] and
    [UpdateAntibodyConcentration] both store minus infinity; the closed form
    [concentration * (1 - dt / antibody_csp_decay_days)] of the claim is 0,
    in binary32 and in the exact arithmetic. *)
Lemma CSP_boosted_overflow_counterexample :
  let ab := Binary32.csp_huge in
  let params := Binary32.slow_csp_params in
  let dt := Binary32.lit 1e10 in
  let o := {| class_of := Class_MalariaAntibodyCSP; members := ab |} in
  let c := MalariaAntibody.m_antibody_concentration ab in
  @f_gt ieee c (MalariaAntibody.m_antibody_capacity ab) = true
  /\ SF_is_finite c = true
  /\ SF_is_finite dt = true
  /\ SF_is_finite (antibody_csp_decay_days params) = true
  /\ MalariaAntibody.m_antibody_concentration
       (members (IMalariaAntibody.Decay dt params o))
     = S754_infinity true
  /\ MalariaAntibody.m_antibody_concentration
       (members (IMalariaAntibody.UpdateAntibodyConcentration dt params o))
     = S754_infinity true
  /\ Claimed.csp_concentration c dt (antibody_csp_decay_days params)
     = S754_zero false
  /\ (Claimed.csp_concentration (FA := exact) 1e30 1e10 1e10 == 0)%Q.
Proof. cbv zeta. repeat split; vm_compute; reflexivity. Qed.

Lemma base_UpdateAntibodyCapacity_law_witness :
  let o := Binary32.object Class_MalariaAntibodyMSP Binary32.scenario_A in
  class_of o <> Class_MalariaAntibodyPfEMP1Minor
  /\ class_of o <> Class_MalariaAntibodyPfEMP1Major
  /\ Binary32.between 0.21333 0.21334
       (MalariaAntibody.m_antibody_capacity
          (members (IMalariaAntibody.UpdateAntibodyCapacity (Binary32.lit 1)
                      Binary32.params (Binary32.lit 0.01) o)))
     = true.
Proof.
  cbv zeta.
  assert (Hm : class_of (Binary32.object Class_MalariaAntibodyMSP Binary32.scenario_A)
               <> Class_MalariaAntibodyPfEMP1Minor) by (simpl; discriminate).
  assert (HM : class_of (Binary32.object Class_MalariaAntibodyMSP Binary32.scenario_A)
               <> Class_MalariaAntibodyPfEMP1Major) by (simpl; discriminate).
  split; [exact Hm|]. split; [exact HM|].
  rewrite (proj1 (@base_UpdateAntibodyCapacity_law ieee (Binary32.lit 1)
                    (Binary32.lit 0.01) Binary32.params
                    (Binary32.object Class_MalariaAntibodyMSP Binary32.scenario_A))
             Hm HM).
  vm_compute. reflexivity.
Defined.

(** ** The exact arithmetic: tests and order *)

Section ExactTests.
Local Open Scope Q_scope.

Lemma Qgt_bool_true_iff (a b : Q) : Qgt_bool a b = true <-> b < a.
Proof.
  unfold Qgt_bool. rewrite negb_true_iff. split; intros H.
  - apply Qnot_le_lt. intros K. apply Qle_bool_iff in K. congruence.
  - destruct (Qle_bool a b) eqn:E; trivial. apply Qle_bool_iff in E. lra.
Qed.

Lemma Qgt_bool_false_iff (a b : Q) : Qgt_bool a b = false <-> a <= b.
Proof. unfold Qgt_bool. rewrite negb_false_iff. apply Qle_bool_iff. Qed.

Lemma Qle_bool_false_iff (a b : Q) : Qle_bool a b = false <-> b < a.
Proof.
  rewrite <- Qgt_bool_true_iff. unfold Qgt_bool.
  rewrite negb_true_iff. reflexivity.
Qed.

(** The program's test [a > b] and the decision of [b < a] agree. *)
Lemma Qgt_bool_dec (A : Type) (a b : Q) (x y : A) :
  (if Qgt_bool a b then x else y) = (if Qlt_le_dec b a then x else y).
Proof.
  destruct (Qlt_le_dec b a) as [H|H].
  - apply Qgt_bool_true_iff in H. now rewrite H.
  - apply Qgt_bool_false_iff in H. now rewrite H.
Qed.

(** The program's test [a <= b], with the branches exchanged. *)
Lemma Qle_bool_dec (A : Type) (a b : Q) (x y : A) :
  (if Qle_bool a b then x else y) = (if Qlt_le_dec b a then y else x).
Proof.
  destruct (Qlt_le_dec b a) as [H|H].
  - apply Qle_bool_false_iff in H. now rewrite H.
  - apply Qle_bool_iff in H. now rewrite H.
Qed.

End ExactTests.

(** ** The code against the laws, in the exact arithmetic *)

Section ExactRefinement.
Local Existing Instance exact.
Import MalariaAntibody.
Local Open Scope Q_scope.


Lemma Minor_UpdateAntibodyCapacity_refines (dt : Q)
      (params : SusceptibilityMalariaConfig) (inv_uL_blood : Q) (ab : t) :
  m_antibody_capacity
    (MalariaAntibodyPfEMP1Minor.UpdateAntibodyCapacity dt params inv_uL_blood ab)
  = Law.minor_capacity dt params inv_uL_blood
      (m_antibody_capacity ab) (m_antigen_count ab).
Proof.
  unfold MalariaAntibodyPfEMP1Minor.UpdateAntibodyCapacity, Law.minor_capacity,
    Law.clamp_to_one, Law.stimulated_growth, Law.rapid_growth, Law.sigmoid,
    Sigmoid.basic_sigmoid.
  cbv zeta. cbn. rewrite !Qle_bool_dec. rewrite <- !Qgt_bool_dec.
  split_tests; reflexivity.
Qed.
Lemma Major_UpdateAntibodyCapacity_refines (dt : Q)
      (params : SusceptibilityMalariaConfig) (inv_uL_blood : Q) (ab : t) :
  m_antibody_capacity
    (MalariaAntibodyPfEMP1Major.UpdateAntibodyCapacity dt params inv_uL_blood ab)
  = Law.major_capacity dt params inv_uL_blood
      (m_antibody_capacity ab) (m_antigen_count ab).
Proof.
  unfold MalariaAntibodyPfEMP1Major.UpdateAntibodyCapacity, Law.major_capacity,
    Law.clamp_to_one, Law.stimulated_growth, Law.rapid_growth, Law.sigmoid,
    Sigmoid.basic_sigmoid.
  cbv zeta. cbn. rewrite !Qle_bool_dec. rewrite <- !Qgt_bool_dec.
  split_tests; reflexivity.
Qed.
End ExactRefinement.

Section ExactClaims.
Local Existing Instance exact.
Local Open Scope Q_scope.

(** ** Decay *)


(** ** Capacity growth *)


End ExactClaims.

(** * The claims on numbers, on binary32 *)

Section MachineClaims.
Local Existing Instance ieee.
Local Open Scope flt_scope.

(** ** Concentration release *)

(** C3, amended: in binary32, for every lineage whose class is not CSP (base,
    MSP, PfEMP1 minor, PfEMP1 major) and every state before the call,
    infinities and NaN included, after [UpdateAntibodyConcentration(dt,
    params)] the test [concentration > capacity] is false; the concentration
    is at most the capacity whenever neither of the two is NaN. *)
Theorem UpdateAntibodyConcentration_bounded (dt : float)
        (params : SusceptibilityMalariaConfig) (o : Object) :
  class_of o <> Class_MalariaAntibodyCSP ->
  let o' := IMalariaAntibody.UpdateAntibodyConcentration dt params o in
  let c' := MalariaAntibody.m_antibody_concentration (members o') in
  let k' := MalariaAntibody.m_antibody_capacity (members o') in
  (c' >? k') = false
  /\ (SF_is_nan c' = false -> SF_is_nan k' = false -> SFleb c' k' = true).
Proof.
  intros H. cbv zeta. destruct o as [c ab]. simpl in H.
  assert (G : (MalariaAntibody.m_antibody_concentration
                 (MalariaAntibody.UpdateAntibodyConcentration dt params ab)
               >? MalariaAntibody.m_antibody_capacity
                    (MalariaAntibody.UpdateAntibodyConcentration dt params ab))
              = false).
  { apply (@UpdateAntibodyConcentration_not_above ieee).
    intros x. apply SFltb_irrefl. }
  assert (E : members (IMalariaAntibody.UpdateAntibodyConcentration dt params
                         {| class_of := c; members := ab |})
              = MalariaAntibody.UpdateAntibodyConcentration dt params ab).
  { destruct c; try congruence; reflexivity. }
  rewrite E. split; [exact G|].
  intros Nc Nk. apply SFleb_of_not_ltb; assumption.
Qed.

(** ** Capacity growth *)


(** C5: in binary32, for a PfEMP1-Minor lineage,
    [UpdateAntibodyCapacity(dt, params, inv_uL_blood)] follows the two-regime
    law of the claim: below the proliferation threshold 0.4 it adds
    [growth_rate * dt * (1 - capacity) * sigmoid(threshold, antigen_count *
    inv_uL_blood + min_stimulation)], with [growth_rate =
    antibody_capacity_growthrate * non_specific_growth] and [min_stimulation =
    antibody_stimulation_c50 * minimum_adapted_response]; at or above the
    threshold it adds [(1 - capacity) * 0.33 * dt] instead; after either
    branch the capacity is clamped to at most 1.0.  The code tests
    [capacity <= 0.4]; no [float] equals the [double] 0.4, so on the values a
    [float] holds this is the test [capacity < 0.4]. *)
Theorem Minor_UpdateAntibodyCapacity_law (dt inv_uL_blood : float)
        (params : SusceptibilityMalariaConfig) (ab : MalariaAntibody.t) :
  Binary32.is_float (MalariaAntibody.m_antibody_capacity ab) = true ->
  let k := MalariaAntibody.m_antibody_capacity ab in
  let n := MalariaAntibody.m_antigen_count ab in
  let growth_rate := antibody_capacity_growthrate params * non_specific_growth params in
  let min_stimulation :=
    antibody_stimulation_c50 params * minimum_adapted_response params in
  let threshold := antibody_stimulation_c50 params in
  let below := d_gt B_CELL_PROLIFERATION_THRESHOLD (f2d k) in
  let k1 :=
    if below
    then k + growth_rate * dt * (f_lit 1 - k)
             * d2f (Sigmoid.basic_sigmoid (f2d threshold)
                      (f2d (i2f n * inv_uL_blood + min_stimulation)))
    else k + (f_lit 1 - k) * B_CELL_PROLIFERATION_CONSTANT * dt in
  let grown :=
    MalariaAntibody.m_antibody_capacity
      (members (IMalariaAntibody.UpdateAntibodyCapacity dt params inv_uL_blood
                  {| class_of := Class_MalariaAntibodyPfEMP1Minor; members := ab |})) in
  grown = (if d_gt (f2d k1) (d_lit 1) then d2f (d_lit 1) else k1)
  /\ d_gt (f2d grown) (d_lit 1) = false.
Proof.
  intros V. cbv zeta.
  change (members (IMalariaAntibody.UpdateAntibodyCapacity dt params inv_uL_blood
                     {| class_of := Class_MalariaAntibodyPfEMP1Minor; members := ab |}))
    with (MalariaAntibodyPfEMP1Minor.UpdateAntibodyCapacity dt params inv_uL_blood ab).
  rewrite (proj1 (Minor_UpdateAntibodyCapacity_flow dt params inv_uL_blood ab)).
  rewrite (binary32_le_threshold_is_lt _ V).
  split; [reflexivity|].
  apply clamped_capacity_not_above, binary32_one_round_trips.
Qed.
End MachineClaims.

Lemma UpdateAntibodyConcentration_bounded_witness :
  let o := Binary32.object Class_MalariaAntibodyPfEMP1Major
             (Binary32.lineage 0.5 5 0 false MalariaAntibodyType.PfEMP1_major 0) in
  let o' := IMalariaAntibody.UpdateAntibodyConcentration (Binary32.lit 1)
              Binary32.params o in
  class_of o <> Class_MalariaAntibodyCSP
  /\ SFleb (MalariaAntibody.m_antibody_concentration (members o'))
       (MalariaAntibody.m_antibody_capacity (members o')) = true.
Proof.
  cbv zeta.
  assert (H : class_of (Binary32.object Class_MalariaAntibodyPfEMP1Major
                          (Binary32.lineage 0.5 5 0 false
                             MalariaAntibodyType.PfEMP1_major 0))
              <> Class_MalariaAntibodyCSP) by (simpl; discriminate).
  split; [exact H|].
  apply (proj2 (@UpdateAntibodyConcentration_bounded (Binary32.lit 1) Binary32.params
                  _ H)); vm_compute; reflexivity.
Defined.

(** C3 as stated fails on the machine: an MSP lineage with capacity 0.5 and an
    infinite concentration, updated with [dt = 1], and the MSP lineage with the
    finite concentration -3e38, updated with [dt = 0], both end with a
    concentration that is NaN, and NaN is not at most the capacity. *)
Lemma UpdateAntibodyConcentration_nan_counterexample :
  let infinite := Binary32.object Class_MalariaAntibodyMSP Binary32.msp_infinite in
  let low := Binary32.object Class_MalariaAntibodyMSP Binary32.msp_low in
  let after_infinite :=
    members (IMalariaAntibody.UpdateAntibodyConcentration (Binary32.lit 1)
               Binary32.params infinite) in
  let after_low :=
    members (IMalariaAntibody.UpdateAntibodyConcentration (Binary32.lit 0)
               Binary32.params low) in
  class_of infinite <> Class_MalariaAntibodyCSP
  /\ MalariaAntibody.m_antibody_concentration after_infinite = S754_nan
  /\ MalariaAntibody.m_antibody_capacity after_infinite = Binary32.lit 0.5
  /\ SFleb (MalariaAntibody.m_antibody_concentration after_infinite)
       (MalariaAntibody.m_antibody_capacity after_infinite) = false
  /\ SF_is_finite (MalariaAntibody.m_antibody_concentration (members low)) = true
  /\ SF_is_finite (MalariaAntibody.m_antibody_capacity (members low)) = true
  /\ MalariaAntibody.m_antibody_concentration after_low = S754_nan
  /\ SFleb (MalariaAntibody.m_antibody_concentration after_low)
       (MalariaAntibody.m_antibody_capacity after_low) = false.
Proof.
  cbv zeta. split; [simpl; discriminate|].
  repeat split; vm_compute; reflexivity.
Qed.


Lemma Minor_UpdateAntibodyCapacity_law_witness :
  let at_0_4f := Binary32.minor_at_0_4f in
  let low := Binary32.minor_low in
  (Binary32.is_float (MalariaAntibody.m_antibody_capacity at_0_4f) = true
   /\ @d_gt ieee B_CELL_PROLIFERATION_THRESHOLD
        (@f2d ieee (MalariaAntibody.m_antibody_capacity at_0_4f)) = false
   /\ Binary32.between 0.5979 0.5981
        (MalariaAntibody.m_antibody_capacity
           (members (IMalariaAntibody.UpdateAntibodyCapacity (Binary32.lit 1)
                       Binary32.params (Binary32.lit 1)
                       {| class_of := Class_MalariaAntibodyPfEMP1Minor;
                          members := at_0_4f |})))
      = true)
  /\ (Binary32.is_float (MalariaAntibody.m_antibody_capacity low) = true
      /\ @d_gt ieee B_CELL_PROLIFERATION_THRESHOLD
           (@f2d ieee (MalariaAntibody.m_antibody_capacity low)) = true
      /\ Binary32.between 0.2076 0.2077
           (MalariaAntibody.m_antibody_capacity
              (members (IMalariaAntibody.UpdateAntibodyCapacity (Binary32.lit 1)
                          Binary32.params (Binary32.lit 1)
                          {| class_of := Class_MalariaAntibodyPfEMP1Minor;
                             members := low |})))
         = true).
Proof.
  cbv zeta.
  assert (V1 : Binary32.is_float
                 (MalariaAntibody.m_antibody_capacity Binary32.minor_at_0_4f) = true)
    by (vm_compute; reflexivity).
  assert (V2 : Binary32.is_float
                 (MalariaAntibody.m_antibody_capacity Binary32.minor_low) = true)
    by (vm_compute; reflexivity).
  split.
  - split; [exact V1|]. split; [vm_compute; reflexivity|].
    rewrite (proj1 (@Minor_UpdateAntibodyCapacity_law (Binary32.lit 1) (Binary32.lit 1)
                      Binary32.params Binary32.minor_at_0_4f V1)).
    vm_compute. reflexivity.
  - split; [exact V2|]. split; [vm_compute; reflexivity|].
    rewrite (proj1 (@Minor_UpdateAntibodyCapacity_law (Binary32.lit 1) (Binary32.lit 1)
                      Binary32.params Binary32.minor_low V2)).
    vm_compute. reflexivity.
Defined.

(** * Further properties of the code *)

Section FurtherProperties.
Local Existing Instance exact.
Local Open Scope Q_scope.

(** ** Construction *)

(** X1: each factory returns an object of its own class whose six members are
    all determined by the arguments: the class's type tag, the given variant
    and capacity, the default concentration, no antigen counted and none
    present; nothing of the storage the object is built in survives. *)
Theorem CreateAntibody_initialises_every_member (FA : FloatArith) (variant : Z)
        (capacity : float) (raw : MalariaAntibody.t) :
  let made (c : DynamicClass) (type : MalariaAntibodyType.Enum) :=
    {| class_of := c;
       members :=
         {| MalariaAntibody.m_antibody_capacity := capacity;
            MalariaAntibody.m_antibody_concentration := Initialize_default_concentration;
            MalariaAntibody.m_antigen_count := 0;
            MalariaAntibody.m_antigen_present := false;
            MalariaAntibody.m_antibody_type := type;
            MalariaAntibody.m_antibody_variant := variant |} |} in
  MalariaAntibodyCSP.CreateAntibody variant capacity raw
  = made Class_MalariaAntibodyCSP MalariaAntibodyType.CSP
  /\ MalariaAntibodyMSP.CreateAntibody variant capacity raw
     = made Class_MalariaAntibodyMSP MalariaAntibodyType.MSP1
  /\ MalariaAntibodyPfEMP1Minor.CreateAntibody variant capacity raw
     = made Class_MalariaAntibodyPfEMP1Minor MalariaAntibodyType.PfEMP1_minor
  /\ MalariaAntibodyPfEMP1Major.CreateAntibody variant capacity raw
     = made Class_MalariaAntibodyPfEMP1Major MalariaAntibodyType.PfEMP1_major.
Proof. cbv zeta. repeat split. Qed.

(** ** Antigen bookkeeping over a cycle *)

Lemma sum_positive_nonneg (ns : list Z) : (0 <= sum_positive ns)%Z.
Proof.
  induction ns as [|n ns IH]; simpl; [lia|].
  destruct (n >? 0)%Z eqn:E; [apply Z.gtb_lt in E|]; lia.
Qed.

Lemma IncreaseAntigenCount_step (FA : FloatArith) (n : Z) (o : Object) :
  (INT64_MIN <= MalariaAntibody.m_antigen_count (members o))%Z ->
  (MalariaAntibody.m_antigen_count (members o) + (if (n >? 0)%Z then n else 0)
   <= INT64_MAX)%Z ->
  let o' := IMalariaAntibody.IncreaseAntigenCount n o in
  MalariaAntibody.m_antigen_count (members o')
  = (MalariaAntibody.m_antigen_count (members o) + (if (n >? 0)%Z then n else 0))%Z
  /\ MalariaAntibody.m_antigen_present (members o')
     = (MalariaAntibody.m_antigen_present (members o) || (n >? 0)%Z)%bool
  /\ same_kinetics_and_identity (members o) (members o')
  /\ class_of o' = class_of o.
Proof.
  intros Hlo Hhi. cbv zeta.
  unfold IMalariaAntibody.IncreaseAntigenCount, IMalariaAntibody.on_members,
    MalariaAntibody.IncreaseAntigenCount. simpl.
  destruct (n >? 0)%Z eqn:E; simpl.
  - apply Z.gtb_lt in E.
    rewrite int64_wrap_in_range by (unfold in_int64; lia).
    rewrite orb_true_r. repeat split.
  - rewrite Z.add_0_r, orb_false_r. repeat split.
Qed.

(** X2: calls of [IncreaseAntigenCount] accumulate.  After one call per
    element of [ns], and as long as the total stays within [int64_t], the
    count has grown by the sum of the strictly positive elements, the flag is
    set as soon as one element was positive and is otherwise as before, and
    nothing else has changed. *)
Theorem IncreaseAntigenCount_accumulates (FA : FloatArith) (ns : list Z) (o : Object) :
  (INT64_MIN <= MalariaAntibody.m_antigen_count (members o))%Z ->
  (MalariaAntibody.m_antigen_count (members o) + sum_positive ns <= INT64_MAX)%Z ->
  let o' := IncreaseAntigenCount_all ns o in
  MalariaAntibody.m_antigen_count (members o')
  = (MalariaAntibody.m_antigen_count (members o) + sum_positive ns)%Z
  /\ MalariaAntibody.m_antigen_present (members o')
     = (MalariaAntibody.m_antigen_present (members o) || any_positive ns)%bool
  /\ same_kinetics_and_identity (members o) (members o')
  /\ class_of o' = class_of o.
Proof.
  cbv zeta. revert o.
  induction ns as [|n ns IH]; intros o Hlo Hhi.
  - simpl. rewrite Z.add_0_r, orb_false_r. repeat split.
  - simpl in Hhi |- *.
    pose proof (sum_positive_nonneg ns) as Hs.
    assert (Hn : (0 <= (if (n >? 0)%Z then n else 0))%Z)
      by (destruct (n >? 0)%Z eqn:E; [apply Z.gtb_lt in E|]; lia).
    destruct (@IncreaseAntigenCount_step FA n o Hlo) as (Hc & Hp & Hk & Hcl); [lia|].
    destruct (IH (IMalariaAntibody.IncreaseAntigenCount n o)) as (Jc & Jp & Jk & Jcl).
    + rewrite Hc. lia.
    + rewrite Hc. lia.
    + rewrite Jc, Jp, Hc, Hp, Jcl, Hcl.
      split; [lia|]. split; [now rewrite orb_assoc|]. split; [|reflexivity].
      unfold same_kinetics_and_identity in *. intuition congruence.
Qed.

Lemma IncreaseAntigenCount_accumulates_witness :
  let o := Examples.msp_busy in
  let ns := [5; -5; 0; 30]%Z in
  (INT64_MIN <= MalariaAntibody.m_antigen_count (members o))%Z
  /\ (MalariaAntibody.m_antigen_count (members o) + sum_positive ns <= INT64_MAX)%Z
  /\ MalariaAntibody.m_antigen_count (members (IncreaseAntigenCount_all ns o)) = 42%Z
  /\ MalariaAntibody.m_antigen_present (members (IncreaseAntigenCount_all ns o)) = true.
Proof.
  cbv zeta.
  assert (L : (INT64_MIN
               <= MalariaAntibody.m_antigen_count (members Examples.msp_busy))%Z)
    by (vm_compute; discriminate).
  assert (H : (MalariaAntibody.m_antigen_count (members Examples.msp_busy)
               + sum_positive [5; -5; 0; 30] <= INT64_MAX)%Z)
    by (vm_compute; discriminate).
  split; [exact L|]. split; [exact H|].
  destruct (@IncreaseAntigenCount_accumulates exact [5; -5; 0; 30]%Z
              Examples.msp_busy L H) as (C & P & _).
  split; [exact C | exact P].
Defined.

(** ** What no sequence of calls undoes *)

Lemma dispatch_Decay_frame (FA : FloatArith) dt params (o : Object) :
  same_identity_and_counters (members o)
    (members (IMalariaAntibody.Decay dt params o)).
Proof. destruct o as [c ab]; destruct c; simpl; auto using Decay_frame, CSP_Decay_frame. Qed.

Lemma dispatch_UpdateAntibodyCapacity_frame (FA : FloatArith) dt params inv
      (o : Object) :
  same_identity_and_counters (members o)
    (members (IMalariaAntibody.UpdateAntibodyCapacity dt params inv o)).
Proof.
  destruct o as [c ab]; destruct c; simpl;
    auto using UpdateAntibodyCapacity_frame, Minor_UpdateAntibodyCapacity_frame,
      Major_UpdateAntibodyCapacity_frame.
Qed.

Lemma dispatch_UpdateAntibodyConcentration_frame (FA : FloatArith) dt params
      (o : Object) :
  same_identity_and_counters (members o)
    (members (IMalariaAntibody.UpdateAntibodyConcentration dt params o)).
Proof.
  destruct o as [c ab]; destruct c; simpl;
    auto using UpdateAntibodyConcentration_frame,
      CSP_UpdateAntibodyConcentration_frame.
Qed.

Lemma perform_keeps_counted_is_present (FA : FloatArith) (c : Call) (o : Object) :
  counted_is_present (members o) -> counted_is_present (members (perform c o)).
Proof.
  intros H.
  assert (F : forall ab' : MalariaAntibody.t,
             same_identity_and_counters (members o) ab' ->
             counted_is_present ab').
  { intros ab' (_ & _ & Hc & Hp). unfold counted_is_present in *.
    rewrite Hc, Hp. exact H. }
  destruct c as [dt params | dt inv | dt params inv | dt g | dt params | | n | x | x];
    unfold perform.
  - apply F. apply dispatch_Decay_frame.
  - destruct o as [c ab]. exact H.
  - apply F. apply dispatch_UpdateAntibodyCapacity_frame.
  - apply F. destruct o as [c ab]. simpl. apply UpdateAntibodyCapacity_rate_frame.
  - apply F. apply dispatch_UpdateAntibodyConcentration_frame.
  - unfold counted_is_present. simpl. intros K. now elim K.
  - destruct o as [c ab]. unfold counted_is_present in *. simpl in *.
    unfold MalariaAntibody.IncreaseAntigenCount.
    destruct (n >? 0)%Z; simpl; auto.
  - destruct o as [c ab]. exact H.
  - destruct o as [c ab]. exact H.
Qed.

(** X3: a counted antigen stays flagged.  If a lineage satisfies "count
    non-zero implies present" (every created lineage does), it still does
    after any sequence of [Decay], [StimulateCytokines], both
    [UpdateAntibodyCapacity], [UpdateAntibodyConcentration], [ResetCounters],
    [IncreaseAntigenCount] and the two kinetic setters, count overflow
    included.  Only [SetAntigenicPresence] can break it. *)
Theorem counted_is_present_invariant (FA : FloatArith) (cs : list Call) (o : Object) :
  counted_is_present (members o) ->
  counted_is_present (members (perform_all cs o))
  /\ ~ counted_is_present
         (members (IMalariaAntibody.SetAntigenicPresence false
                     (IMalariaAntibody.IncreaseAntigenCount 1
                        (IMalariaAntibody.ResetCounters o)))).
Proof.
  intros H. split.
  - revert o H. induction cs as [|c cs IH]; intros o H; simpl.
    + exact H.
    + apply IH. apply perform_keeps_counted_is_present. exact H.
  - destruct o as [c ab]. unfold counted_is_present. simpl.
    intros K. assert (E : false = true) by (apply K; discriminate). discriminate E.
Qed.

Lemma counted_is_present_invariant_witness :
  let o := MalariaAntibodyCSP.CreateAntibody (FA := exact) 2 0.1 Examples.raw in
  let cs := [CallIncreaseAntigenCount 7; CallDecay 1 Examples.params;
             CallUpdateAntibodyCapacity 1 Examples.params 1;
             CallUpdateAntibodyConcentration 1 Examples.params;
             CallIncreaseAntigenCount (-3)] in
  counted_is_present (members o)
  /\ counted_is_present (members (perform_all cs o))
  /\ MalariaAntibody.m_antigen_count (members (perform_all cs o)) = 7%Z
  /\ MalariaAntibody.m_antigen_present (members (perform_all cs o)) = true.
Proof.
  cbv zeta.
  assert (H : counted_is_present
                (members (MalariaAntibodyCSP.CreateAntibody (FA := exact) 2 0.1
                            Examples.raw)))
    by (intros K; elim K; reflexivity).
  split; [exact H|].
  split.
  - exact (proj1 (@counted_is_present_invariant exact
                    [CallIncreaseAntigenCount 7; CallDecay 1 Examples.params;
                     CallUpdateAntibodyCapacity 1 Examples.params 1;
                     CallUpdateAntibodyConcentration 1 Examples.params;
                     CallIncreaseAntigenCount (-3)] _ H)).
  - split; reflexivity.
Defined.

Lemma perform_keeps_identity (FA : FloatArith) (c : Call) (o : Object) :
  class_of (perform c o) = class_of o
  /\ MalariaAntibody.m_antibody_type (members (perform c o))
     = MalariaAntibody.m_antibody_type (members o)
  /\ MalariaAntibody.m_antibody_variant (members (perform c o))
     = MalariaAntibody.m_antibody_variant (members o).
Proof.
  destruct c as [dt params | dt inv | dt params inv | dt g | dt params | | n | x | x];
    unfold perform.
  - destruct (dispatch_Decay_frame dt params o) as (T & V & _).
    split; [destruct o as [c ab]; destruct c; reflexivity | split; assumption].
  - destruct o as [c ab]. repeat split.
  - destruct (dispatch_UpdateAntibodyCapacity_frame dt params inv o) as (T & V & _).
    split; [destruct o as [c ab]; destruct c; reflexivity | split; assumption].
  - destruct o as [c ab]. simpl.
    destruct (UpdateAntibodyCapacity_rate_frame dt g ab) as (T & V & _).
    split; [reflexivity | split; assumption].
  - destruct (dispatch_UpdateAntibodyConcentration_frame dt params o) as (T & V & _).
    split; [destruct o as [c ab]; destruct c; reflexivity | split; assumption].
  - destruct o as [c ab]. repeat split.
  - destruct o as [c ab]. simpl. unfold MalariaAntibody.IncreaseAntigenCount.
    destruct (n >? 0)%Z; repeat split.
  - destruct o as [c ab]. repeat split.
  - destruct o as [c ab]. repeat split.
Qed.

(** X4: the identity of a lineage is fixed at creation.  No sequence of
    kinetics updates, counter operations or kinetic setters, followed or not by
    [SetAntigenicPresence], changes the dynamic class, the type tag or the
    variant; only [Initialize] writes them. *)
Theorem identity_is_immutable (FA : FloatArith) (cs : list Call) (b : bool)
        (o : Object) :
  let o' := IMalariaAntibody.SetAntigenicPresence b (perform_all cs o) in
  class_of o' = class_of o
  /\ MalariaAntibody.GetAntibodyType (members o')
     = MalariaAntibody.GetAntibodyType (members o)
  /\ MalariaAntibody.GetAntibodyVariant (members o')
     = MalariaAntibody.GetAntibodyVariant (members o).
Proof.
  cbv zeta. unfold MalariaAntibody.GetAntibodyType, MalariaAntibody.GetAntibodyVariant.
  simpl.
  revert o. induction cs as [|c cs IH]; intros o; simpl.
  - repeat split.
  - destruct (IH (perform c o)) as (C & T & V).
    destruct (perform_keeps_identity c o) as (C' & T' & V').
    rewrite C, T, V. repeat split; assumption.
Qed.

(** ** The Boost archive *)

Lemma Boost_serialize_saves (FA : FloatArith) (w : list Boost.Item)
      (ab : MalariaAntibody.t) :
  Boost.serialize (Boost.Saving w) ab = Some (Boost.Saving (w ++ Boost_items ab), ab).
Proof.
  destruct ab as [k c n p e v]. unfold Boost.serialize, Boost_items. simpl.
  repeat rewrite <- app_assoc. reflexivity.
Qed.

Lemma Boost_serialize_loads (FA : FloatArith) (rest : list Boost.Item)
      (ab fresh : MalariaAntibody.t) :
  Boost.serialize (Boost.Loading (Boost_items ab ++ rest)) fresh
  = Some (Boost.Loading rest, ab).
Proof. destruct ab as [k c n p e v]. reflexivity. Qed.

Lemma Boost_save_all_appends (FA : FloatArith) (abs : list MalariaAntibody.t)
      (w : list Boost.Item) :
  Boost_save_all (Boost.Saving w) abs
  = Some (Boost.Saving (w ++ flat_map Boost_items abs)).
Proof.
  revert w. induction abs as [|ab abs IH]; intros w;
    cbn [Boost_save_all flat_map].
  - now rewrite app_nil_r.
  - rewrite Boost_serialize_saves, IH, <- app_assoc. reflexivity.
Qed.

Lemma Boost_load_all_reads (FA : FloatArith) (abs storage : list MalariaAntibody.t)
      (rest : list Boost.Item) :
  List.length storage = List.length abs ->
  Boost_load_all (Boost.Loading (flat_map Boost_items abs ++ rest)) storage
  = Some (Boost.Loading rest, abs).
Proof.
  revert storage. induction abs as [|ab abs IH]; intros [|fresh storage] H;
    simpl in H; try discriminate; cbn [Boost_load_all flat_map].
  - reflexivity.
  - rewrite <- app_assoc, Boost_serialize_loads, IH by congruence. reflexivity.
Qed.

(** X5: the Boost path round-trips whole collections.  With the archive
    modelled as the sequence of items written to it, objects saved one after
    the other into an empty archive are read back, in the same order and with
    all six members, into as many objects of any previous content: the
    template names the same members in the same order for saving and for
    loading. *)
Theorem Boost_collection_round_trip (FA : FloatArith)
        (abs storage : list MalariaAntibody.t) :
  List.length storage = List.length abs ->
  exists items,
    Boost_save_all (Boost.Saving []) abs = Some (Boost.Saving items)
    /\ option_map snd (Boost_load_all (Boost.Loading items) storage) = Some abs.
Proof.
  intros H. exists (flat_map Boost_items abs).
  split; [apply (Boost_save_all_appends abs [])|].
  rewrite <- (app_nil_r (flat_map Boost_items abs)).
  rewrite (@Boost_load_all_reads FA abs storage [] H). reflexivity.
Qed.

Lemma Boost_collection_round_trip_witness :
  let abs := [Examples.csp_boosted; Examples.scenario_A] in
  let storage := [Examples.raw; Examples.raw] in
  List.length storage = List.length abs
  /\ exists items,
       Boost_save_all (Boost.Saving []) abs = Some (Boost.Saving items)
       /\ option_map snd (Boost_load_all (Boost.Loading items) storage) = Some abs.
Proof.
  cbv zeta.
  assert (H : List.length [Examples.raw; Examples.raw]
              = List.length [Examples.csp_boosted; Examples.scenario_A])
    by reflexivity.
  split; [exact H|].
  exact (@Boost_collection_round_trip exact
           [Examples.csp_boosted; Examples.scenario_A]
           [Examples.raw; Examples.raw] H).
Defined.

(** ** The boosted CSP regime, in every arithmetic *)

Lemma set_concentration_twice (FA : FloatArith) (ab : MalariaAntibody.t)
      (x y : float) :
  MalariaAntibody.set_concentration (MalariaAntibody.set_concentration ab x) y
  = MalariaAntibody.set_concentration ab y.
Proof. reflexivity. Qed.

Lemma CSP_boosted_step (FA : FloatArith) (dt : float)
      (params : SusceptibilityMalariaConfig) (which : bool)
      (ab : MalariaAntibody.t) :
  f_gt (MalariaAntibody.m_antibody_concentration ab)
    (MalariaAntibody.m_antibody_capacity ab) = true ->
  decay_or_release dt params which
    {| class_of := Class_MalariaAntibodyCSP; members := ab |}
  = {| class_of := Class_MalariaAntibodyCSP;
       members :=
         MalariaAntibody.set_concentration ab
           (CSP_decay_step dt params (MalariaAntibody.m_antibody_concentration ab)) |}.
Proof.
  intros B. destruct (CSP_flow dt params ab) as [D U]. cbv zeta in D, U.
  rewrite B in D, U. unfold CSP_decay_step.
  destruct which; unfold decay_or_release.
  - change (IMalariaAntibody.Decay dt params
              {| class_of := Class_MalariaAntibodyCSP; members := ab |})
      with {| class_of := Class_MalariaAntibodyCSP;
              members := MalariaAntibodyCSP.Decay dt params ab |}.
    rewrite D. reflexivity.
  - change (IMalariaAntibody.UpdateAntibodyConcentration dt params
              {| class_of := Class_MalariaAntibodyCSP; members := ab |})
      with {| class_of := Class_MalariaAntibodyCSP;
              members := MalariaAntibodyCSP.UpdateAntibodyConcentration dt params ab |}.
    rewrite U. reflexivity.
Qed.

(** X8: a boosted CSP lineage decays once per call.  In every arithmetic, a
    sequence of [n] calls of [Decay] and [UpdateAntibodyConcentration] on a
    CSP lineage, in any order, applies the step
    [c - c * dt / antibody_csp_decay_days] [n] times to the concentration and
    leaves every other member as it was, as long as each intermediate
    concentration is above the capacity: both functions of a cycle apply the
    step, so one cycle decays the concentration twice. *)
Theorem CSP_boosted_decays_once_per_call (FA : FloatArith) (dt : float)
        (params : SusceptibilityMalariaConfig) (ws : list bool)
        (ab : MalariaAntibody.t) :
  let step := CSP_decay_step dt params in
  let c := MalariaAntibody.m_antibody_concentration ab in
  let k := MalariaAntibody.m_antibody_capacity ab in
  (forall i : nat, (i < List.length ws)%nat -> f_gt (Nat.iter i step c) k = true) ->
  decay_or_release_all dt params ws
    {| class_of := Class_MalariaAntibodyCSP; members := ab |}
  = {| class_of := Class_MalariaAntibodyCSP;
       members :=
         MalariaAntibody.set_concentration ab (Nat.iter (List.length ws) step c) |}.
Proof.
  cbv zeta. unfold decay_or_release_all. revert ab.
  induction ws as [|w ws IH]; intros ab H.
  - destruct ab. reflexivity.
  - cbn [fold_left List.length].
    rewrite CSP_boosted_step by (apply (H 0%nat); simpl; lia).
    rewrite IH.
    + rewrite set_concentration_twice. cbn [MalariaAntibody.set_concentration
        MalariaAntibody.m_antibody_concentration].
      rewrite <- Nat.iter_succ_r. reflexivity.
    + intros i Hi.
      cbn [MalariaAntibody.set_concentration
             MalariaAntibody.m_antibody_concentration
             MalariaAntibody.m_antibody_capacity].
      rewrite <- Nat.iter_succ_r. apply H. simpl. lia.
Qed.

Lemma CSP_boosted_decays_once_per_call_witness :
  let ab := Binary32.csp_boosted in
  let dt := Binary32.lit 9 in
  let o' := decay_or_release_all dt Binary32.params [true; false]
              {| class_of := Class_MalariaAntibodyCSP; members := ab |} in
  (forall i : nat, (i < 2)%nat ->
     @f_gt ieee
       (Nat.iter i (CSP_decay_step dt Binary32.params)
          (MalariaAntibody.m_antibody_concentration ab))
       (MalariaAntibody.m_antibody_capacity ab) = true)
  /\ Binary32.between 1.6199 1.6201
       (MalariaAntibody.m_antibody_concentration (members o')) = true
  /\ MalariaAntibody.m_antibody_capacity (members o') = Binary32.lit 0.5.
Proof.
  cbv zeta.
  assert (H : forall i : nat, (i < List.length [true; false])%nat ->
              @f_gt ieee
                (Nat.iter i (CSP_decay_step (Binary32.lit 9) Binary32.params)
                   (MalariaAntibody.m_antibody_concentration Binary32.csp_boosted))
                (MalariaAntibody.m_antibody_capacity Binary32.csp_boosted) = true).
  { intros [|[|i]] Hi; [vm_compute; reflexivity | vm_compute; reflexivity |].
    simpl in Hi. lia. }
  split; [exact H|].
  rewrite (@CSP_boosted_decays_once_per_call ieee (Binary32.lit 9) Binary32.params
             [true; false] Binary32.csp_boosted H).
  split; vm_compute; reflexivity.
Defined.

(** ** Capacity growth, in the exact arithmetic *)

(** X12: PfEMP1-Minor is PfEMP1-Major with a scaled rate and a final clamp.
    For every state and every input, the capacity the Minor update stores is
    the clamp to 1 of what the Major update stores under the same
    configuration with [antibody_capacity_growthrate] replaced by
    [antibody_capacity_growthrate * non_specific_growth]. *)
Theorem Minor_is_clamped_scaled_Major (dt inv_uL_blood : Q)
        (params : SusceptibilityMalariaConfig) (ab : MalariaAntibody.t) :
  MalariaAntibody.m_antibody_capacity
    (MalariaAntibodyPfEMP1Minor.UpdateAntibodyCapacity dt params inv_uL_blood ab)
  = Law.clamp_to_one
      (MalariaAntibody.m_antibody_capacity
         (MalariaAntibodyPfEMP1Major.UpdateAntibodyCapacity dt
            (with_capacity_growthrate params
               (antibody_capacity_growthrate params * non_specific_growth params))
            inv_uL_blood ab)).
Proof.
  rewrite Minor_UpdateAntibodyCapacity_refines, Major_UpdateAntibodyCapacity_refines.
  unfold Law.minor_capacity, Law.major_capacity, with_capacity_growthrate.
  cbv zeta. cbn.
  destruct (Qlt_le_dec 0.4 (MalariaAntibody.m_antibody_capacity ab)).
  - reflexivity.
  - unfold Law.clamp_to_one.
    match goal with |- context [Qlt_le_dec 1 ?x] => destruct (Qlt_le_dec 1 x) as [A|A] end.
    + destruct (Qlt_le_dec 1 1); reflexivity.
    + destruct (Qlt_le_dec 1 _) as [C|C]; [lra | reflexivity].
Qed.

(** ** Machine floats: what the clamps do and do not catch *)

(** X15: in binary32 the clamp to 1.0 holds for every input.  After the base
    update, the PfEMP1-Minor update and the overload with a given rate, the
    test [capacity > 1.0] is false whatever the state, the time step and the
    parameters were, infinities and NaN included.  (PfEMP1-Major is left out:
    its rapid branch has no clamp.) *)
Theorem binary32_capacity_not_above_one (dt inv_uL_blood growth_rate : @float ieee)
        (params : SusceptibilityMalariaConfig (FA := ieee)) (o : Object (FA := ieee)) :
  class_of o <> Class_MalariaAntibodyPfEMP1Major ->
  @d_gt ieee
    (@f2d ieee
       (MalariaAntibody.m_antibody_capacity
          (members (IMalariaAntibody.UpdateAntibodyCapacity dt params inv_uL_blood o))))
    (@d_lit ieee 1) = false
  /\ @d_gt ieee
       (@f2d ieee
          (MalariaAntibody.m_antibody_capacity
             (members (IMalariaAntibody.UpdateAntibodyCapacity_rate dt growth_rate o))))
       (@d_lit ieee 1) = false.
Proof.
  intros H. destruct o as [c ab]. simpl in H.
  assert (B : @d_gt ieee
                (@f2d ieee
                   (MalariaAntibody.m_antibody_capacity
                      (MalariaAntibody.UpdateAntibodyCapacity dt params inv_uL_blood ab)))
                (@d_lit ieee 1) = false).
  { rewrite (proj1 (UpdateAntibodyCapacity_flow dt params inv_uL_blood ab)).
    apply clamped_capacity_not_above, binary32_one_round_trips. }
  split.
  - destruct c; try congruence; try exact B.
    change (members (IMalariaAntibody.UpdateAntibodyCapacity dt params inv_uL_blood
                       {| class_of := Class_MalariaAntibodyPfEMP1Minor;
                          members := ab |}))
      with (MalariaAntibodyPfEMP1Minor.UpdateAntibodyCapacity dt params inv_uL_blood ab).
    rewrite (proj1 (Minor_UpdateAntibodyCapacity_flow dt params inv_uL_blood ab)).
    apply clamped_capacity_not_above, binary32_one_round_trips.
  - change (members (IMalariaAntibody.UpdateAntibodyCapacity_rate dt growth_rate
                       {| class_of := c; members := ab |}))
      with (MalariaAntibody.UpdateAntibodyCapacity_rate dt growth_rate ab).
    rewrite (proj1 (UpdateAntibodyCapacity_rate_flow dt growth_rate ab)).
    apply clamped_capacity_not_above, binary32_one_round_trips.
Qed.

Lemma binary32_capacity_not_above_one_witness :
  class_of Binary32.msp_half <> Class_MalariaAntibodyPfEMP1Major
  /\ @d_gt ieee
       (@f2d ieee
          (MalariaAntibody.m_antibody_capacity
             (members (IMalariaAntibody.UpdateAntibodyCapacity (Binary32.lit 10)
                         Binary32.params (Binary32.lit 1) Binary32.msp_half))))
       (@d_lit ieee 1) = false.
Proof.
  assert (H : class_of Binary32.msp_half <> Class_MalariaAntibodyPfEMP1Major)
    by (simpl; discriminate).
  split; [exact H|].
  exact (proj1 (@binary32_capacity_not_above_one (Binary32.lit 10) (Binary32.lit 1)
                  (Binary32.lit 0) Binary32.params Binary32.msp_half H)).
Defined.

Lemma binary32_concentration_not_above_witness :
  let o := Binary32.object Class_MalariaAntibodyMSP
             (Binary32.lineage 0.5 5 0 false MalariaAntibodyType.MSP1 0) in
  class_of o <> Class_MalariaAntibodyCSP
  /\ @f_gt ieee
       (MalariaAntibody.m_antibody_concentration
          (members (IMalariaAntibody.UpdateAntibodyConcentration (Binary32.lit 1)
                      Binary32.params o)))
       (MalariaAntibody.m_antibody_capacity
          (members (IMalariaAntibody.UpdateAntibodyConcentration (Binary32.lit 1)
                      Binary32.params o))) = false.
Proof.
  cbv zeta.
  assert (H : class_of (Binary32.object Class_MalariaAntibodyMSP
                          (Binary32.lineage 0.5 5 0 false MalariaAntibodyType.MSP1 0))
              <> Class_MalariaAntibodyCSP) by (simpl; discriminate).
  split; [exact H|].
  exact (@binary32_concentration_not_above (Binary32.lit 1) Binary32.params _ H).
Defined.

Lemma SFsub_nan_r prec emax (x : spec_float) : SFsub prec emax x S754_nan = S754_nan.
Proof. destruct x as [s | s | | s m e]; reflexivity. Qed.

Lemma SFmul_nan_r prec emax (x : spec_float) : SFmul prec emax x S754_nan = S754_nan.
Proof. destruct x as [s | s | | s m e]; reflexivity. Qed.

Lemma SFltb_nan_r (x : spec_float) : SFltb x S754_nan = false.
Proof. destruct x as [s | s | | s m e]; try destruct s; reflexivity. Qed.

Lemma binary32_nan_growth (g s : @float ieee) :
  @f_add ieee S754_nan
    (@f_mul ieee (@f_mul ieee g (@f_sub ieee (@f_lit ieee 1) S754_nan)) s) = S754_nan.
Proof. reflexivity. Qed.

Lemma binary32_nan_rapid (dt : @float ieee) :
  @f_add ieee S754_nan
    (@f_mul ieee
       (@f_mul ieee (@f_sub ieee (@f_lit ieee 1) S754_nan) B_CELL_PROLIFERATION_CONSTANT)
       dt) = S754_nan.
Proof. reflexivity. Qed.

(** X16: in binary32 no update repairs a capacity that is not a number.  With
    a NaN capacity every test on it is false and every sum with it is NaN, so
    [Decay], the growth update of each of the four classes, the overload with
    a given rate and the release update all leave the capacity NaN: the clamp
    [capacity > 1.0] does not catch it. *)
Theorem binary32_nan_capacity_persists (dt inv_uL_blood growth_rate : @float ieee)
        (params : SusceptibilityMalariaConfig (FA := ieee)) (o : Object (FA := ieee)) :
  MalariaAntibody.m_antibody_capacity (members o) = S754_nan ->
  MalariaAntibody.m_antibody_capacity (members (IMalariaAntibody.Decay dt params o))
  = S754_nan
  /\ MalariaAntibody.m_antibody_capacity
       (members (IMalariaAntibody.UpdateAntibodyCapacity dt params inv_uL_blood o))
     = S754_nan
  /\ MalariaAntibody.m_antibody_capacity
       (members (IMalariaAntibody.UpdateAntibodyCapacity_rate dt growth_rate o))
     = S754_nan
  /\ MalariaAntibody.m_antibody_capacity
       (members (IMalariaAntibody.UpdateAntibodyConcentration dt params o))
     = S754_nan.
Proof.
  destruct o as [c ab]. cbn [members]. intros H.
  assert (D : MalariaAntibody.m_antibody_capacity (MalariaAntibody.Decay dt params ab)
              = S754_nan).
  { rewrite (proj2 (Decay_flow dt params ab)), H.
    change (@f_gt ieee S754_nan (memory_level params))
      with (SFltb (memory_level params) S754_nan).
    rewrite SFltb_nan_r. reflexivity. }
  assert (B : MalariaAntibody.m_antibody_capacity
                (MalariaAntibody.UpdateAntibodyCapacity dt params inv_uL_blood ab)
              = S754_nan).
  { rewrite (proj1 (UpdateAntibodyCapacity_flow dt params inv_uL_blood ab)), H.
    rewrite binary32_nan_growth. reflexivity. }
  split; [|split; [|split]].
  - destruct c; try exact D.
    change (members (IMalariaAntibody.Decay dt params
                       {| class_of := Class_MalariaAntibodyCSP; members := ab |}))
      with (MalariaAntibodyCSP.Decay dt params ab).
    rewrite (proj1 (CSP_flow dt params ab)).
    destruct (@f_gt ieee (MalariaAntibody.m_antibody_concentration ab)
                (MalariaAntibody.m_antibody_capacity ab)); [exact H | exact D].
  - destruct c; try exact B.
    + change (members (IMalariaAntibody.UpdateAntibodyCapacity dt params inv_uL_blood
                         {| class_of := Class_MalariaAntibodyPfEMP1Minor;
                            members := ab |}))
        with (MalariaAntibodyPfEMP1Minor.UpdateAntibodyCapacity dt params inv_uL_blood ab).
      rewrite (proj1 (Minor_UpdateAntibodyCapacity_flow dt params inv_uL_blood ab)), H.
      change (@d_le ieee (@f2d ieee S754_nan) B_CELL_PROLIFERATION_THRESHOLD)
        with false.
      cbv iota. rewrite binary32_nan_rapid. reflexivity.
    + change (members (IMalariaAntibody.UpdateAntibodyCapacity dt params inv_uL_blood
                         {| class_of := Class_MalariaAntibodyPfEMP1Major;
                            members := ab |}))
        with (MalariaAntibodyPfEMP1Major.UpdateAntibodyCapacity dt params inv_uL_blood ab).
      rewrite (proj1 (Major_UpdateAntibodyCapacity_flow dt params inv_uL_blood ab)), H.
      change (@d_le ieee (@f2d ieee S754_nan) B_CELL_PROLIFERATION_THRESHOLD)
        with false.
      cbv iota. apply binary32_nan_rapid.
  - change (members (IMalariaAntibody.UpdateAntibodyCapacity_rate dt growth_rate
                       {| class_of := c; members := ab |}))
      with (MalariaAntibody.UpdateAntibodyCapacity_rate dt growth_rate ab).
    rewrite (proj1 (UpdateAntibodyCapacity_rate_flow dt growth_rate ab)), H.
    change (@f_add ieee S754_nan
              (@f_mul ieee (@f_mul ieee growth_rate dt)
                 (@f_sub ieee (@i2f ieee 1) S754_nan)))
      with (SFadd 24 128 S754_nan
              (SFmul 24 128 (SFmul 24 128 growth_rate dt)
                 (SFsub 24 128 (SF_of_Z 24 128 1) S754_nan))).
    rewrite SFsub_nan_r, SFmul_nan_r. reflexivity.
  - assert (U : MalariaAntibody.m_antibody_capacity
                  (MalariaAntibody.UpdateAntibodyConcentration dt params ab)
                = S754_nan).
    { rewrite (proj2 (UpdateAntibodyConcentration_flow dt params ab)). exact H. }
    destruct c; try exact U.
    change (members (IMalariaAntibody.UpdateAntibodyConcentration dt params
                       {| class_of := Class_MalariaAntibodyCSP; members := ab |}))
      with (MalariaAntibodyCSP.UpdateAntibodyConcentration dt params ab).
    rewrite (proj2 (CSP_flow dt params ab)).
    destruct (@f_gt ieee (MalariaAntibody.m_antibody_concentration ab)
                (MalariaAntibody.m_antibody_capacity ab)); [exact H | exact U].
Qed.

Lemma binary32_nan_capacity_persists_witness :
  let o := Binary32.object Class_MalariaAntibodyPfEMP1Major
             (@MalariaAntibody.Build_t ieee S754_nan (Binary32.lit 0.25) 5 true
                MalariaAntibodyType.PfEMP1_major 3) in
  MalariaAntibody.m_antibody_capacity (members o) = S754_nan
  /\ MalariaAntibody.m_antibody_capacity
       (members (IMalariaAntibody.UpdateAntibodyCapacity (Binary32.lit 1)
                   Binary32.params (Binary32.lit 1) o)) = S754_nan.
Proof.
  cbv zeta. split; [reflexivity|].
  refine (proj1 (proj2 (@binary32_nan_capacity_persists (Binary32.lit 1) (Binary32.lit 1)
                          (Binary32.lit 0) Binary32.params _ _))).
  reflexivity.
Defined.

(** ** The JSON export loses nothing *)

Lemma to_int_injective (a b : MalariaAntibodyType.Enum) :
  MalariaAntibodyType.to_int a = MalariaAntibodyType.to_int b -> a = b.
Proof. destruct a, b; simpl; intros H; try reflexivity; discriminate. Qed.

Lemma base_JSerialize_injective (FA : FloatArith) (root : Json.IJsonObjectAdapter)
      (a b : MalariaAntibody.t) :
  MalariaAntibody.JSerialize root a = MalariaAntibody.JSerialize root b -> a = b.
Proof.
  unfold MalariaAntibody.JSerialize, Json.EndObject, Json.Insert, Json.BeginObject.
  cbv zeta. intros H.
  apply app_inj_tail in H. destruct H as [H _].
  apply app_inj_tail in H. destruct H as [H Hv].
  apply app_inj_tail in H. destruct H as [H He].
  apply app_inj_tail in H. destruct H as [H Hp].
  apply app_inj_tail in H. destruct H as [H Hn].
  apply app_inj_tail in H. destruct H as [H Hc].
  apply app_inj_tail in H. destruct H as [_ Hk].
  destruct a as [k c n p e v], b as [k' c' n' p' e' v']. simpl in *.
  injection Hk as ->. injection Hc as ->. injection Hn as ->. injection Hp as ->.
  injection Hv as ->. injection He as He. apply to_int_injective in He. subst e'.
  reflexivity.
Qed.

(** X17: the JSON export determines the members.  Whatever their classes, two
    lineages whose exports through [JSerialize] onto the same adapter are
    equal have the same six members: nothing the object holds is left out of
    the export or merged with another value.  (The dynamic class itself is not
    exported.) *)
Theorem JSerialize_injective (FA : FloatArith) (root : Json.IJsonObjectAdapter)
        (o1 o2 : Object) :
  IMalariaAntibody.JSerialize root o1 = IMalariaAntibody.JSerialize root o2 ->
  members o1 = members o2.
Proof.
  destruct o1 as [c1 a], o2 as [c2 b]. intros H.
  apply (@base_JSerialize_injective FA root).
  destruct c1, c2; exact H.
Qed.

Lemma JSerialize_injective_witness :
  IMalariaAntibody.JSerialize [] Binary32.msp_half
  = IMalariaAntibody.JSerialize []
      (Binary32.object Class_MalariaAntibody (members Binary32.msp_half))
  /\ members Binary32.msp_half
     = members (Binary32.object Class_MalariaAntibody (members Binary32.msp_half)).
Proof.
  assert (H : IMalariaAntibody.JSerialize [] Binary32.msp_half
              = IMalariaAntibody.JSerialize []
                  (Binary32.object Class_MalariaAntibody (members Binary32.msp_half)))
    by reflexivity.
  split; [exact H|].
  exact (@JSerialize_injective ieee [] Binary32.msp_half
           (Binary32.object Class_MalariaAntibody (members Binary32.msp_half)) H).
Defined.

End FurtherProperties.

(** * Further properties, on binary32 *)

Section MachineProperties.
Local Existing Instance ieee.
Local Open Scope flt_scope.

(** X9: full capacity is a fixed point of the growth updates, in binary32,
    whenever the factors are finite.  From capacity 1.0f the overload keeps
    1.0f when [growth_rate * dt] is finite; the PfEMP1-Minor and PfEMP1-Major
    updates keep it when [dt] is finite; the base update (base, CSP, MSP)
    keeps it when [dt], [MSP1_antibody_growthrate] and the sigmoid value are
    finite.  No sign is assumed.  (With an infinite factor the product with
    [1 - capacity = 0] is NaN.) *)
Theorem full_capacity_is_fixed (dt inv_uL_blood growth_rate : float)
        (params : SusceptibilityMalariaConfig) (o : Object) :
  MalariaAntibody.m_antibody_capacity (members o) = Binary32.one ->
  let sigmoid :=
    d2f (Sigmoid.basic_sigmoid (f2d (antibody_stimulation_c50 params))
           (f2d (i2f (MalariaAntibody.m_antigen_count (members o)) * inv_uL_blood))) in
  (SF_is_finite (growth_rate * dt) = true ->
   MalariaAntibody.m_antibody_capacity
     (members (IMalariaAntibody.UpdateAntibodyCapacity_rate dt growth_rate o))
   = Binary32.one)
  /\ (SF_is_finite dt = true ->
      match class_of o with
      | Class_MalariaAntibodyPfEMP1Minor | Class_MalariaAntibodyPfEMP1Major => True
      | _ => SF_is_finite (MSP1_antibody_growthrate params) = true
             /\ SF_is_finite sigmoid = true
      end ->
      MalariaAntibody.m_antibody_capacity
        (members (IMalariaAntibody.UpdateAntibodyCapacity dt params inv_uL_blood o))
      = Binary32.one).
Proof.
  destruct o as [c ab]. cbn [members class_of]. intros K. cbv zeta. split.
  - intros F.
    change (members (IMalariaAntibody.UpdateAntibodyCapacity_rate dt growth_rate
                       {| class_of := c; members := ab |}))
      with (MalariaAntibody.UpdateAntibodyCapacity_rate dt growth_rate ab).
    rewrite (proj1 (UpdateAntibodyCapacity_rate_flow dt growth_rate ab)), K.
    change (i2f 1 - Binary32.one) with (S754_zero false).
    rewrite one_plus_zero by (apply SFmul_finite_zero_r; exact F).
    reflexivity.
  - intros F H.
    assert (B : SF_is_finite (MSP1_antibody_growthrate params) = true ->
                SF_is_finite
                  (d2f (Sigmoid.basic_sigmoid (f2d (antibody_stimulation_c50 params))
                          (f2d (i2f (MalariaAntibody.m_antigen_count ab)
                                * inv_uL_blood)))) = true ->
                MalariaAntibody.m_antibody_capacity
                  (MalariaAntibody.UpdateAntibodyCapacity dt params inv_uL_blood ab)
                = Binary32.one).
    { intros G S.
      rewrite (proj1 (UpdateAntibodyCapacity_flow dt params inv_uL_blood ab)), K.
      change (f_lit 1 - Binary32.one) with (S754_zero false).
      rewrite (one_plus_zero
                 (MSP1_antibody_growthrate params * S754_zero false
                  * d2f (Sigmoid.basic_sigmoid (f2d (antibody_stimulation_c50 params))
                           (f2d (i2f (MalariaAntibody.m_antigen_count ab)
                                 * inv_uL_blood)))))
        by (apply SFmul_zero_finite_l; [apply SFmul_finite_zero_r; exact G | exact S]).
      change (d_gt (f2d Binary32.one) B_CELL_PROLIFERATION_THRESHOLD) with true.
      cbv iota.
      change (S754_zero false) with (f_lit 1 - Binary32.one).
      rewrite (rapid_from_one dt F). reflexivity. }
    destruct c.
    1-3: destruct H as [G S]; exact (B G S).
    + change (members (IMalariaAntibody.UpdateAntibodyCapacity dt params inv_uL_blood
                         {| class_of := Class_MalariaAntibodyPfEMP1Minor;
                            members := ab |}))
        with (MalariaAntibodyPfEMP1Minor.UpdateAntibodyCapacity dt params
                inv_uL_blood ab).
      rewrite (proj1 (Minor_UpdateAntibodyCapacity_flow dt params inv_uL_blood ab)), K.
      change (d_le (f2d Binary32.one) B_CELL_PROLIFERATION_THRESHOLD) with false.
      cbv iota.
      rewrite (rapid_from_one dt F). reflexivity.
    + change (members (IMalariaAntibody.UpdateAntibodyCapacity dt params inv_uL_blood
                         {| class_of := Class_MalariaAntibodyPfEMP1Major;
                            members := ab |}))
        with (MalariaAntibodyPfEMP1Major.UpdateAntibodyCapacity dt params
                inv_uL_blood ab).
      rewrite (proj1 (Major_UpdateAntibodyCapacity_flow dt params inv_uL_blood ab)), K.
      change (d_le (f2d Binary32.one) B_CELL_PROLIFERATION_THRESHOLD) with false.
      cbv iota.
      apply (rapid_from_one dt F).
Qed.

(** X13: the sign of the cytokine signal, in binary32.  Directly after
    [ResetCounters] the signal is a zero or NaN, never another number.  With
    [0 <= antigen_count] and [0 <= inv_uL_blood], the signal is never
    negative for a concentration in [0, 1] and never positive for a
    concentration at or above 1, rounding, underflow and overflow included:
    a concentration boosted beyond 1 cannot yield a positive signal, and the
    code does not floor a negative one. *)
Theorem StimulateCytokines_sign (dt inv_uL_blood : float) (o : Object) :
  let c := MalariaAntibody.m_antibody_concentration (members o) in
  let n := MalariaAntibody.m_antigen_count (members o) in
  let r := fst (IMalariaAntibody.StimulateCytokines dt inv_uL_blood o) in
  let r0 := fst (IMalariaAntibody.StimulateCytokines dt inv_uL_blood
                   (IMalariaAntibody.ResetCounters o)) in
  (SF_is_zero r0 || SF_is_nan r0 = true)
  /\ ((0 <= n)%Z -> Binary32.nonneg inv_uL_blood = true ->
      (Binary32.in_unit_interval c = true -> (f_lit 0 >? r) = false)
      /\ (Binary32.is_float c = true -> SFleb Binary32.one c = true ->
          (r >? f_lit 0) = false)).
Proof.
  destruct o as [cl ab]. cbv zeta.
  change (fst (IMalariaAntibody.StimulateCytokines dt inv_uL_blood
                 {| class_of := cl; members := ab |}))
    with ((i2f 1 - MalariaAntibody.m_antibody_concentration ab)
          * i2f (MalariaAntibody.m_antigen_count ab) * inv_uL_blood).
  change (fst (IMalariaAntibody.StimulateCytokines dt inv_uL_blood
                 (IMalariaAntibody.ResetCounters {| class_of := cl; members := ab |})))
    with ((i2f 1 - MalariaAntibody.m_antibody_concentration ab)
          * S754_zero false * inv_uL_blood).
  cbn [members]. split.
  - apply SFmul_zero_or_nan_l. apply SFmul_zero_r.
  - intros Hn Hi. apply nonneg_not_negative in Hi. split.
    + intros K. apply not_below_zero.
      apply f_mul_not_negative; [|exact Hi].
      apply f_mul_not_negative; [|apply i2f_not_negative; exact Hn].
      change (i2f 1) with (f_lit 1). apply one_minus_not_negative. exact K.
    + intros V L. apply SFltb_zero_of_not_positive.
      apply SF_not_positive_mul; [|exact Hi].
      apply SF_not_positive_mul; [|apply i2f_not_negative; exact Hn].
      apply SFsub_one_not_positive; assumption.
Qed.
End MachineProperties.

Lemma full_capacity_is_fixed_witness :
  let o := Binary32.msp_full in
  MalariaAntibody.m_antibody_capacity (members o) = Binary32.one
  /\ SF_is_finite (@f_mul ieee (Binary32.lit 0.5) (Binary32.lit 10)) = true
  /\ MalariaAntibody.m_antibody_capacity
       (members (IMalariaAntibody.UpdateAntibodyCapacity_rate (Binary32.lit 10)
                   (Binary32.lit 0.5) o))
     = Binary32.one.
Proof.
  cbv zeta.
  assert (K : MalariaAntibody.m_antibody_capacity (members Binary32.msp_full)
              = Binary32.one) by reflexivity.
  assert (F : SF_is_finite (@f_mul ieee (Binary32.lit 0.5) (Binary32.lit 10)) = true)
    by (vm_compute; reflexivity).
  split; [exact K|]. split; [exact F|].
  exact (proj1 (@full_capacity_is_fixed (Binary32.lit 10) (Binary32.lit 1)
                  (Binary32.lit 0.5) Binary32.params Binary32.msp_full K) F).
Defined.

Lemma StimulateCytokines_sign_witness :
  let o := Binary32.object Class_MalariaAntibodyCSP Binary32.csp_boosted in
  let tiny := S754_finite false 1 (-149) in
  ((0 <= MalariaAntibody.m_antigen_count (members o))%Z
   /\ Binary32.nonneg tiny = true
   /\ Binary32.is_float (MalariaAntibody.m_antibody_concentration (members o)) = true
   /\ SFleb Binary32.one (MalariaAntibody.m_antibody_concentration (members o)) = true)
  /\ @f_gt ieee (fst (IMalariaAntibody.StimulateCytokines (Binary32.lit 1) tiny o))
       (@f_lit ieee 0) = false.
Proof.
  cbv zeta.
  assert (N : (0 <= MalariaAntibody.m_antigen_count
                      (members (Binary32.object Class_MalariaAntibodyCSP
                                  Binary32.csp_boosted)))%Z)
    by (vm_compute; discriminate).
  assert (I : Binary32.nonneg (S754_finite false 1 (-149)) = true) by reflexivity.
  assert (V : Binary32.is_float
                (MalariaAntibody.m_antibody_concentration
                   (members (Binary32.object Class_MalariaAntibodyCSP
                               Binary32.csp_boosted))) = true)
    by (vm_compute; reflexivity).
  assert (L : SFleb Binary32.one
                (MalariaAntibody.m_antibody_concentration
                   (members (Binary32.object Class_MalariaAntibodyCSP
                               Binary32.csp_boosted))) = true)
    by (vm_compute; reflexivity).
  split; [repeat split; assumption|].
  exact (proj2 (proj2 (@StimulateCytokines_sign (Binary32.lit 1)
                         (S754_finite false 1 (-149))
                         (Binary32.object Class_MalariaAntibodyCSP
                            Binary32.csp_boosted)) N I) V L).
Defined.
